(** * Internal transfers API: a shallow embedding of the transfer engine

    The development follows the layout of the Go service:

    - [model]: request, response and row types with their [Validate]
      methods (internal/model);
    - the PostgreSQL schema of migrations/001_create_schema.sql as a
      [Database] record whose writes enforce the declared constraints;
    - [AccountRepository], [TransactionRepository] and
      [IdempotencyRepository]: one definition per SQL statement;
    - [AccountService] and [TransactionService]: the business logic;
    - [handler]: the HTTP shell, as far as it decides what a caller sees.

    Conventions.  A [decimal.Decimal] is an exact decimal; it is modelled by
    the integer number of units of the storage scale, 10^-10, the scale of
    the columns [NUMERIC(38,10)]: the amounts considered are those the
    columns hold without rounding.  A [uuid.UUID] is its 128-bit value.  A
    [time.Time] is an integer instant.  Every statement sent to the
    database may fail with a driver error (connection loss, serialization
    conflict, deadlock victim ...): the environment [Env] of a call carries
    the oracle that decides it, together with the values PostgreSQL
    generates ([NOW()], [gen_random_uuid()]). *)

From Stdlib Require Import ZArith String Ascii List Lia Bool.
From stdpp Require Import base option list gmap strings fin_maps.

Abbreviation UUID := N (only parsing).
Abbreviation Time := Z (only parsing).
Abbreviation Decimal := Z (only parsing).

Local Open Scope string_scope.

(** ** Errors *)

(** The Go [error] values that flow through the service: the two struct
    errors, the repository sentinels, a driver error wrapped by
    [fmt.Errorf("<context>: %w", err)], and a bare [fmt.Errorf(message)]. *)
Inductive error : Type :=
| ServiceError (Code Message : string)
| ValidationError (Field Message : string)
| ErrAccountNotFound
| ErrTransactionNotFound
| Wrapped (context cause : string)
| ErrorString (message : string).

(** [err.Error()] *)
Definition error_string (e : error) : string :=
  match e with
  | ServiceError _ m => m
  | ValidationError _ m => m
  | ErrAccountNotFound => "account not found"
  | ErrTransactionNotFound => "transaction not found"
  | Wrapped ctx cause => ctx +:+ ": " +:+ cause
  | ErrorString m => m
  end.

Inductive result (A : Type) : Type :=
| Ok (a : A)
| Err (e : error).
Arguments Ok {A} a.
Arguments Err {A} e.

(** Common error codes (internal/model) *)
Definition ErrCodeValidation : string := "VALIDATION_ERROR".
Definition ErrCodeNotFound : string := "NOT_FOUND".
Definition ErrCodeInternalError : string := "INTERNAL_ERROR".
Definition ErrCodeInsufficientFunds : string := "INSUFFICIENT_FUNDS".
Definition ErrCodeInvalidInput : string := "INVALID_INPUT".
Definition ErrCodeConflict : string := "CONFLICT".

(** ** internal/model *)

Record Account : Type := mkAccount {
  Account_ID : UUID;
  Account_Balance : Decimal;
  Account_CreatedAt : Time;
  Account_UpdatedAt : Time
}.

Inductive TransactionStatus : Type :=
| TransactionStatusPending
| TransactionStatusCompleted
| TransactionStatusFailed.

Record Transaction : Type := mkTransaction {
  Tx_ID : UUID;
  Tx_SourceAccountID : option UUID;
  Tx_DestinationAccountID : UUID;
  Tx_Amount : Decimal;
  Tx_Reference : option string;
  Tx_Status : TransactionStatus;
  Tx_CreatedAt : Time;
  Tx_CompletedAt : option Time
}.

Record CreateTransactionRequest : Type := mkRequest {
  SourceAccountID : option UUID;
  DestinationAccountID : UUID;
  Amount : Decimal;
  Reference : option string
}.

Record CreateTransactionResponse : Type := mkResponse {
  Resp_ID : UUID;
  Resp_SourceAccountID : option UUID;
  Resp_DestinationAccountID : UUID;
  Resp_Amount : Decimal;
  Resp_Reference : option string;
  Resp_Status : TransactionStatus;
  Resp_CreatedAt : Time
}.

Record BulkTransferRequest : Type := mkBulkRequest {
  Transfers : list CreateTransactionRequest
}.

Record TransferError : Type := mkTransferError {
  TE_Index : nat;
  TE_Error : string;
  TE_Code : string
}.

Record BulkTransferResponse : Type := mkBulkResponse {
  Bulk_Transfers : list CreateTransactionResponse;
  Bulk_Failed : list TransferError
}.

Record CreateAccountRequest : Type := mkAccountRequest {
  InitialBalance : option Decimal
}.

Record CreateAccountResponse : Type := mkAccountResponse {
  AccResp_ID : UUID;
  AccResp_Balance : Decimal
}.

Module model.

(** [CreateAccountRequest.Validate] *)
Definition ValidateAccount (r : CreateAccountRequest) : option error :=
  match InitialBalance r with
  | Some b =>
      if (b <? 0)%Z
      then Some (ValidationError "initial_balance" "initial balance cannot be negative")
      else None
  | None => None
  end.

(** [CreateTransactionRequest.Validate]: the three checks in the
    order of the source; [len] of a Go string counts bytes. *)
Definition Validate (r : CreateTransactionRequest) : option error :=
  if ((Amount r =? 0)%Z || (Amount r <? 0)%Z)%bool
  then Some (ValidationError "amount" "amount must be positive")
  else if match SourceAccountID r with
          | Some s => (s =? DestinationAccountID r)%N
          | None => false
          end
  then Some (ValidationError "destination_account_id"
               "source and destination accounts cannot be the same")
  else if match Reference r with
          | Some ref => (255 <? String.length ref)%nat
          | None => false
          end
  then Some (ValidationError "reference" "reference cannot exceed 255 characters")
  else None.

(** [string(rune(i))] for a code point below 128: the one-byte string
    holding that character (not the decimal digits of [i]). *)
Definition string_of_rune (i : nat) : string :=
  String (ascii_of_nat i) EmptyString.

(** The element loop of [BulkTransferRequest.Validate]. *)
Fixpoint validate_each (i : nat) (ts : list CreateTransactionRequest)
  : option error :=
  match ts with
  | [] => None
  | transfer :: rest =>
      match Validate transfer with
      | Some (ValidationError f m) =>
          Some (ValidationError
                  ("transfers[" +:+ string_of_rune i +:+ "]." +:+ f) m)
      | Some err => Some err
      | None => validate_each (S i) rest
      end
  end.

(** [BulkTransferRequest.Validate] *)
Definition ValidateBulk (r : BulkTransferRequest) : option error :=
  if (length (Transfers r) =? 0)%nat
  then Some (ValidationError "transfers" "at least one transfer is required")
  else if (100 <? length (Transfers r))%nat
  then Some (ValidationError "transfers"
               "cannot process more than 100 transfers at once")
  else validate_each 0 (Transfers r).

End model.

(** ** The database

    The three tables of migrations/001_create_schema.sql.  [accounts] is
    keyed by its primary key; [transactions] keeps its rows in insertion
    order; [idempotency_keys] is keyed by [key_hash]. *)

Record IdempotencyRecord : Type := mkIdempotencyRecord {
  KeyHash : string;
  RequestBody : string;
  ResponseBody : option string;
  ResponseStatus : option Z;
  Idem_CreatedAt : Time;
  ExpiresAt : Time
}.

Record Database : Type := mkDatabase {
  accounts : gmap N Account;
  transactions : list Transaction;
  idempotency_keys : gmap string IdempotencyRecord
}.

(** The SQL statements the repositories send, as they appear on the wire. *)
Inductive Statement : Type :=
| BEGIN
| COMMIT
| ROLLBACK
| InsertAccount (balance : Decimal)
| SelectAccount (id : UUID)
| SelectBalanceForUpdate (id : UUID)
| UpdateAccountBalance (id : UUID) (newBalance : Decimal)
| SelectBalanceAt (id : UUID) (timestamp : Time)
| SelectAccountExists (id : UUID)
| InsertTransaction (req : CreateTransactionRequest)
| UpdateTransactionStatus (id : UUID) (status : TransactionStatus)
| SelectTransaction (id : UUID)
| SelectAccountTransactions (accountID : UUID) (limit offset : Z)
| InsertIdempotencyKey (keyHash : string)
| SelectIdempotencyKey (keyHash : string)
| UpdateIdempotencyResponse (keyHash : string).

(** What one service call gets from outside the program: [fault n] is the
    driver error, if any, that the [n]-th statement of the call fails with;
    [now] is the value of [NOW()]; [fresh_id] is the value of
    [gen_random_uuid()]. *)
Record Env : Type := mkEnv {
  fault : nat -> option string;
  now : Time;
  fresh_id : UUID
}.

(** A connection in use: the data it sees and the statements sent so far. *)
Record Session : Type := mkSession {
  store : Database;
  issued : list Statement
}.

(** Repository code: a state and error monad over a [Session]. *)
Definition Storage (A : Type) : Type := Session -> result A * Session.

#[global] Instance Storage_ret : MRet Storage :=
  fun A a σ => (Ok a, σ).

#[global] Instance Storage_bind : MBind Storage :=
  fun A B f m σ =>
    match m σ with
    | (Ok a, σ') => f a σ'
    | (Err e, σ') => (Err e, σ')
    end.

(** [return nil, e] *)
Definition fail {A : Type} (e : error) : Storage A :=
  fun σ => (Err e, σ).

(** [if err != nil { return nil, f(err) }] after a call *)
Definition on_error {A : Type} (m : Storage A) (f : error -> error) : Storage A :=
  fun σ =>
    match m σ with
    | (Ok a, σ') => (Ok a, σ')
    | (Err e, σ') => (Err (f e), σ')
    end.

(** One statement: it is recorded; if the driver fails, the repository
    returns the error wrapped with its [context]; otherwise [run] is the
    effect of the statement on the data, where an [inl cause] is an error
    raised by the database itself (constraint violation), wrapped alike. *)
Definition exec {A : Type} (env : Env) (s : Statement) (context : string)
    (run : Database -> string + (A * Database)) : Storage A :=
  fun σ =>
    let log := (issued σ ++ [s])%list in
    match fault env (length (issued σ)) with
    | Some cause => (Err (Wrapped context cause), mkSession (store σ) log)
    | None =>
        match run (store σ) with
        | inl cause => (Err (Wrapped context cause), mkSession (store σ) log)
        | inr (a, d) => (Ok a, mkSession d log)
        end
    end.

(** *** Column types and table constraints *)

(** [NUMERIC(38,10)]: at most 38 significant digits, 10 of them after the
    point; in units of 10^-10 the absolute value stays below 10^38. *)
Definition numeric_limit : Z := 10 ^ 38.

Definition numeric_38_10 (v : Z) : bool := (Z.abs v <? numeric_limit)%Z.

(** [accounts]: [CONSTRAINT positive_balance CHECK (balance >= 0)]. *)
Definition accounts_row_check (a : Account) : option string :=
  if negb (numeric_38_10 (Account_Balance a))
  then Some "numeric field overflow"
  else if (Account_Balance a <? 0)%Z
  then Some "new row for relation accounts violates check constraint positive_balance"
  else None.

Definition has_transaction (d : Database) (id : UUID) : bool :=
  existsb (fun t => (Tx_ID t =? id)%N) (transactions d).

Definition has_account (d : Database) (id : UUID) : bool :=
  match accounts d !! id with Some _ => true | None => false end.

(** [transactions]: primary key, [positive_amount], [different_accounts],
    the two foreign keys and [VARCHAR(255)]; [valid_status] holds of every
    [TransactionStatus]. *)
Definition transactions_row_check (d : Database) (t : Transaction)
  : option string :=
  if has_transaction d (Tx_ID t)
  then Some "duplicate key value violates unique constraint transactions_pkey"
  else if negb (numeric_38_10 (Tx_Amount t))
  then Some "numeric field overflow"
  else if negb (0 <? Tx_Amount t)%Z
  then Some "new row for relation transactions violates check constraint positive_amount"
  else if match Tx_SourceAccountID t with
          | Some s => (s =? Tx_DestinationAccountID t)%N
          | None => false
          end
  then Some "new row for relation transactions violates check constraint different_accounts"
  else if match Tx_SourceAccountID t with
          | Some s => negb (has_account d s)
          | None => false
          end
  then Some "insert on table transactions violates foreign key constraint"
  else if negb (has_account d (Tx_DestinationAccountID t))
  then Some "insert on table transactions violates foreign key constraint"
  else if match Tx_Reference t with
          | Some ref => (255 <? String.length ref)%nat
          | None => false
          end
  then Some "value too long for type character varying(255)"
  else None.

Definition set_accounts (d : Database) (m : gmap N Account) : Database :=
  mkDatabase m (transactions d) (idempotency_keys d).

Definition set_transactions (d : Database) (l : list Transaction) : Database :=
  mkDatabase (accounts d) l (idempotency_keys d).

Definition set_idempotency_keys (d : Database)
    (m : gmap string IdempotencyRecord) : Database :=
  mkDatabase (accounts d) (transactions d) m.

(** ** internal/repository *)

Module AccountRepository.

(** [INSERT INTO accounts (balance, created_at, updated_at) VALUES ($1,
    NOW(), NOW()) RETURNING ...] *)
Definition Create (env : Env) (initialBalance : Decimal) : Storage Account :=
  exec env (InsertAccount initialBalance) "failed to create account"
    (fun d =>
       let account :=
         mkAccount (fresh_id env) initialBalance (now env) (now env) in
       if has_account d (fresh_id env)
       then inl "duplicate key value violates unique constraint accounts_pkey"
       else match accounts_row_check account with
            | Some cause => inl cause
            | None =>
                inr (account,
                     set_accounts d (<[fresh_id env := account]> (accounts d)))
            end).

(** [SELECT ... FROM accounts WHERE id = $1]; [sql.ErrNoRows] becomes
    [ErrAccountNotFound]. *)
Definition GetByID (env : Env) (id : UUID) : Storage Account :=
  o ← exec env (SelectAccount id) "failed to get account"
        (fun d => inr (accounts d !! id, d));
  match o with
  | Some account => mret account
  | None => fail ErrAccountNotFound
  end.

(** [SELECT balance FROM accounts WHERE id = $1 FOR UPDATE] *)
Definition GetBalanceForUpdate (env : Env) (id : UUID) : Storage Decimal :=
  o ← exec env (SelectBalanceForUpdate id)
        "failed to get account balance for update"
        (fun d => inr (accounts d !! id, d));
  match o with
  | Some account => mret (Account_Balance account)
  | None => fail ErrAccountNotFound
  end.

(** [SET balance = $1, updated_at = NOW()] on one row. *)
Definition with_balance (env : Env) (newBalance : Decimal) (a : Account)
  : Account :=
  mkAccount (Account_ID a) newBalance (Account_CreatedAt a) (now env).

(** [UPDATE accounts SET balance = $1, updated_at = NOW() WHERE id = $2];
    the new row is checked against the table constraints; no matching
    row gives [rowsAffected == 0]. *)
Definition UpdateBalance (env : Env) (id : UUID) (newBalance : Decimal)
  : Storage unit :=
  rowsAffected ← exec env (UpdateAccountBalance id newBalance)
        "failed to update account balance"
        (fun d =>
           match accounts d !! id with
           | None => inr (0%Z, d)
           | Some a =>
               match accounts_row_check (with_balance env newBalance a) with
               | Some cause => inl cause
               | None =>
                   inr (1%Z,
                        set_accounts d
                          (<[id := with_balance env newBalance a]>
                             (accounts d)))
               end
           end);
  if (rowsAffected =? 0)%Z then fail ErrAccountNotFound else mret tt.

(** [SELECT balance FROM accounts WHERE id = $1 AND updated_at <= $2
    ORDER BY updated_at DESC LIMIT 1]: [id] is the primary key, so at
    most the current row qualifies. *)
Definition GetBalanceAt (env : Env) (id : UUID) (timestamp : Time)
  : Storage Decimal :=
  o ← exec env (SelectBalanceAt id timestamp)
        "failed to get historical balance"
        (fun d =>
           inr (match accounts d !! id with
                | Some a =>
                    if (Account_UpdatedAt a <=? timestamp)%Z
                    then Some (Account_Balance a) else None
                | None => None
                end, d));
  match o with
  | Some balance => mret balance
  | None => fail ErrAccountNotFound
  end.

(** [SELECT 1 FROM accounts WHERE id = $1 LIMIT 1] *)
Definition Exists (env : Env) (id : UUID) : Storage bool :=
  exec env (SelectAccountExists id) "failed to check account existence"
    (fun d => inr (has_account d id, d)).

End AccountRepository.

Module TransactionRepository.

(** [INSERT INTO transactions (...) VALUES ($1, $2, $3, $4, $5, NOW())
    RETURNING ...] with status [pending]. *)
Definition Create (env : Env) (req : CreateTransactionRequest)
  : Storage Transaction :=
  exec env (InsertTransaction req) "failed to create transaction"
    (fun d =>
       let transaction :=
         mkTransaction (fresh_id env) (SourceAccountID req)
           (DestinationAccountID req) (Amount req) (Reference req)
           TransactionStatusPending (now env) None in
       match transactions_row_check d transaction with
       | Some cause => inl cause
       | None =>
           inr (transaction,
                set_transactions d (transactions d ++ [transaction])%list)
       end).

(** [SET status = $1, completed_at = CASE WHEN $2 IN ('completed',
    'failed') THEN NOW() ELSE completed_at END] on one row. *)
Definition with_status (env : Env) (status : TransactionStatus)
    (t : Transaction) : Transaction :=
  mkTransaction (Tx_ID t) (Tx_SourceAccountID t) (Tx_DestinationAccountID t)
    (Tx_Amount t) (Tx_Reference t) status (Tx_CreatedAt t)
    (match status with
     | TransactionStatusCompleted | TransactionStatusFailed => Some (now env)
     | TransactionStatusPending => Tx_CompletedAt t
     end).

(** [UPDATE transactions SET ... WHERE id = $3] *)
Definition UpdateStatus (env : Env) (id : UUID) (status : TransactionStatus)
  : Storage unit :=
  rowsAffected ← exec env (UpdateTransactionStatus id status)
        "failed to update transaction status"
        (fun d =>
           inr (Z.of_nat
                  (length
                     (List.filter (fun t => (Tx_ID t =? id)%N)
                        (transactions d))),
                set_transactions d
                  (map (fun t =>
                          if (Tx_ID t =? id)%N then with_status env status t
                          else t)
                     (transactions d))));
  if (rowsAffected =? 0)%Z then fail ErrTransactionNotFound else mret tt.

(** [SELECT ... FROM transactions WHERE id = $1] *)
Definition GetByID (env : Env) (id : UUID) : Storage Transaction :=
  o ← exec env (SelectTransaction id) "failed to get transaction"
        (fun d =>
           inr (find (fun t => (Tx_ID t =? id)%N) (transactions d), d));
  match o with
  | Some transaction => mret transaction
  | None => fail ErrTransactionNotFound
  end.

(** [ORDER BY created_at DESC]: insertion into a list that is already
    in descending order; rows with equal [created_at] keep the order in
    which they are met. *)
Fixpoint insert_desc (t : Transaction) (l : list Transaction)
  : list Transaction :=
  match l with
  | [] => [t]
  | u :: rest =>
      if (Tx_CreatedAt u <? Tx_CreatedAt t)%Z
      then t :: u :: rest
      else u :: insert_desc t rest
  end.

Definition order_by_created_at_desc (l : list Transaction)
  : list Transaction :=
  fold_right insert_desc [] l.

Definition involves (accountID : UUID) (t : Transaction) : bool :=
  match Tx_SourceAccountID t with
  | Some s => (s =? accountID)%N
  | None => false
  end || (Tx_DestinationAccountID t =? accountID)%N.

(** [SELECT ... FROM transactions WHERE source_account_id = $1 OR
    destination_account_id = $1 ORDER BY created_at DESC LIMIT $2 OFFSET
    $3]; PostgreSQL refuses a negative [LIMIT] or [OFFSET]. *)
Definition GetAccountTransactions (env : Env) (accountID : UUID)
    (limit offset : Z) : Storage (list Transaction) :=
  exec env (SelectAccountTransactions accountID limit offset)
    "failed to get account transactions"
    (fun d =>
       if (limit <? 0)%Z then inl "LIMIT must not be negative"
       else if (offset <? 0)%Z then inl "OFFSET must not be negative"
       else
         inr (take (Z.to_nat limit)
                (drop (Z.to_nat offset)
                   (order_by_created_at_desc
                      (List.filter (involves accountID) (transactions d)))),
              d)).

End TransactionRepository.

Module IdempotencyRepository.

(** [INTERVAL '24 hours'], in seconds. *)
Definition ttl : Z := 24 * 3600.

(** [INSERT INTO idempotency_keys ... ON CONFLICT (key_hash) DO NOTHING] *)
Definition StoreRequest (env : Env) (keyHash requestBody : string)
  : Storage unit :=
  exec env (InsertIdempotencyKey keyHash) "failed to store idempotency key"
    (fun d =>
       if (64 <? String.length keyHash)%nat
       then inl "value too long for type character varying(64)"
       else match idempotency_keys d !! keyHash with
            | Some _ => inr (tt, d)
            | None =>
                inr (tt,
                     set_idempotency_keys d
                       (<[keyHash :=
                            mkIdempotencyRecord keyHash requestBody None None
                              (now env) (now env + ttl)%Z]>
                          (idempotency_keys d)))
            end).

(** [SELECT ... WHERE key_hash = $1 AND expires_at > NOW()]; no row is
    [nil, nil]. *)
Definition GetRequest (env : Env) (keyHash : string)
  : Storage (option IdempotencyRecord) :=
  exec env (SelectIdempotencyKey keyHash) "failed to get idempotency record"
    (fun d =>
       inr (match idempotency_keys d !! keyHash with
            | Some record =>
                if (now env <? ExpiresAt record)%Z then Some record else None
            | None => None
            end, d)).

(** [UPDATE idempotency_keys SET response_body = $1, response_status =
    $2 WHERE key_hash = $3] *)
Definition UpdateResponse (env : Env) (keyHash responseBody : string)
    (status : Z) : Storage unit :=
  exec env (UpdateIdempotencyResponse keyHash)
    "failed to update idempotency response"
    (fun d =>
       inr (tt,
            set_idempotency_keys d
              (alter (fun r =>
                        mkIdempotencyRecord (KeyHash r) (RequestBody r)
                          (Some responseBody) (Some status)
                          (Idem_CreatedAt r) (ExpiresAt r))
                 keyHash (idempotency_keys d)))).

End IdempotencyRepository.

(** ** internal/service *)

(** What a service call leaves behind: the value or error it returns, the
    committed data, and the statements it sent. *)
Record Outcome (A : Type) : Type := mkOutcome {
  returned : result A;
  database : Database;
  statements : list Statement
}.
Arguments mkOutcome {A} _ _ _.
Arguments returned {A} _.
Arguments database {A} _.
Arguments statements {A} _.

(** Repository calls made on the pool ([r.db]), outside any transaction:
    every statement takes effect at once. *)
Definition on_pool {A : Type} (d : Database) (m : Storage A) : Outcome A :=
  let '(r, σ) := m (mkSession d []) in
  mkOutcome r (store σ) (issued σ).

(** [errors.Is(err, repository.ErrAccountNotFound)]: the wrapped errors of
    this program wrap driver errors only. *)
Definition is_ErrAccountNotFound (e : error) : bool :=
  match e with ErrAccountNotFound => true | _ => false end.

Definition is_ErrTransactionNotFound (e : error) : bool :=
  match e with ErrTransactionNotFound => true | _ => false end.

Module AccountService.

Definition not_found (e : error) : error :=
  if is_ErrAccountNotFound e
  then ServiceError ErrCodeNotFound "Account not found"
  else e.

(** [CreateAccount] *)
Definition CreateAccount (env : Env) (d : Database)
    (req : CreateAccountRequest) : Outcome CreateAccountResponse :=
  match model.ValidateAccount req with
  | Some (ValidationError _ m) =>
      mkOutcome (Err (ServiceError ErrCodeValidation m)) d []
  | Some err => mkOutcome (Err err) d []
  | None =>
      let initialBalance :=
        match InitialBalance req with Some b => b | None => 0%Z end in
      on_pool d
        (account ← AccountRepository.Create env initialBalance;
         mret (mkAccountResponse (Account_ID account)
                 (Account_Balance account)))
  end.

(** [GetAccount] *)
Definition GetAccount (env : Env) (d : Database) (id : UUID)
  : Outcome Account :=
  on_pool d (on_error (AccountRepository.GetByID env id) not_found).

(** [GetAccountBalance], the balance now or at a given instant *)
Definition GetAccountBalance (env : Env) (d : Database) (id : UUID)
    (at_time : option Time) : Outcome Decimal :=
  match at_time with
  | Some t =>
      on_pool d (on_error (AccountRepository.GetBalanceAt env id t) not_found)
  | None =>
      on_pool d
        (account ← on_error (AccountRepository.GetByID env id) not_found;
         mret (Account_Balance account))
  end.

End AccountService.

Module TransactionService.

(** The statements of [CreateTransaction] between [BeginTx] and
    [Commit], on the connection of the transaction. *)
Definition transfer (env : Env) (req : CreateTransactionRequest)
  : Storage Transaction :=
  match SourceAccountID req with
  | Some source =>
      sourceBalance ←
        on_error (AccountRepository.GetBalanceForUpdate env source)
          (fun err =>
             if is_ErrAccountNotFound err
             then ServiceError ErrCodeNotFound "Source account not found"
             else err);
      if (sourceBalance <? Amount req)%Z
      then fail (ServiceError ErrCodeInsufficientFunds
                   "Insufficient funds in source account")
      else mret tt
  | None => mret tt
  end;;
  on_error (AccountRepository.GetBalanceForUpdate env (DestinationAccountID req))
    (fun err =>
       if is_ErrAccountNotFound err
       then ServiceError ErrCodeNotFound "Destination account not found"
       else err);;
  transaction ← TransactionRepository.Create env req;
  match SourceAccountID req with
  | Some source =>
      sourceBalance ← AccountRepository.GetBalanceForUpdate env source;
      AccountRepository.UpdateBalance env source (sourceBalance - Amount req)%Z
  | None => mret tt
  end;;
  destBalance ←
    AccountRepository.GetBalanceForUpdate env (DestinationAccountID req);
  AccountRepository.UpdateBalance env (DestinationAccountID req)
    (destBalance + Amount req)%Z;;
  TransactionRepository.UpdateStatus env (Tx_ID transaction)
    TransactionStatusCompleted;;
  mret transaction.

(** [CreateTransaction]: validation, then one serializable transaction.
    The deferred [tx.Rollback()] discards the work of every path that
    returns before a successful [tx.Commit()]. *)
Definition CreateTransaction (env : Env) (d : Database)
    (req : CreateTransactionRequest) : Outcome CreateTransactionResponse :=
  match model.Validate req with
  | Some (ValidationError _ m) =>
      mkOutcome (Err (ServiceError ErrCodeValidation m)) d []
  | Some err => mkOutcome (Err err) d []
  | None =>
      match fault env 0 with
      | Some cause =>
          mkOutcome (Err (Wrapped "failed to begin transaction" cause)) d
            [BEGIN]
      | None =>
          match transfer env req (mkSession d [BEGIN]) with
          | (Err err, σ) =>
              mkOutcome (Err err) d (issued σ ++ [ROLLBACK])%list
          | (Ok transaction, σ) =>
              match fault env (length (issued σ)) with
              | Some cause =>
                  mkOutcome
                    (Err (Wrapped "failed to commit transaction" cause)) d
                    (issued σ ++ [COMMIT])%list
              | None =>
                  mkOutcome
                    (Ok (mkResponse (Tx_ID transaction)
                           (Tx_SourceAccountID transaction)
                           (Tx_DestinationAccountID transaction)
                           (Tx_Amount transaction)
                           (Tx_Reference transaction)
                           TransactionStatusCompleted
                           (Tx_CreatedAt transaction)))
                    (store σ) (issued σ ++ [COMMIT])%list
              end
          end
      end
  end.

(** [code] in the loop of [ProcessBulkTransfers] *)
Definition failure_code (err : error) : string :=
  match err with
  | ServiceError code _ => code
  | _ => ErrCodeInternalError
  end.

(** The loop [for i, transferReq := range req.Transfers]: [envs i] is
    the environment of the call made for element [i]. *)
Fixpoint process (envs : nat -> Env) (i : nat)
    (reqs : list CreateTransactionRequest)
    (response : BulkTransferResponse) (d : Database)
    (log : list Statement) : Outcome BulkTransferResponse :=
  match reqs with
  | [] => mkOutcome (Ok response) d log
  | transferReq :: rest =>
      let o := CreateTransaction (envs i) d transferReq in
      match returned o with
      | Err err =>
          process envs (S i) rest
            (mkBulkResponse (Bulk_Transfers response)
               (Bulk_Failed response ++
                [mkTransferError i (error_string err) (failure_code err)])%list)
            (database o) (log ++ statements o)%list
      | Ok transferResp =>
          process envs (S i) rest
            (mkBulkResponse (Bulk_Transfers response ++ [transferResp])%list
               (Bulk_Failed response))
            (database o) (log ++ statements o)%list
      end
  end.

(** [ProcessBulkTransfers] *)
Definition ProcessBulkTransfers (envs : nat -> Env) (d : Database)
    (req : BulkTransferRequest) : Outcome BulkTransferResponse :=
  match model.ValidateBulk req with
  | Some err => mkOutcome (Err err) d []
  | None => process envs 0 (Transfers req) (mkBulkResponse [] []) d []
  end.

(** [GetTransaction] *)
Definition GetTransaction (env : Env) (d : Database) (id : UUID)
  : Outcome Transaction :=
  on_pool d
    (on_error (TransactionRepository.GetByID env id)
       (fun err =>
          if is_ErrTransactionNotFound err
          then ServiceError ErrCodeNotFound "Transaction not found"
          else err)).

(** [GetAccountTransactions] *)
Definition GetAccountTransactions (env : Env) (d : Database)
    (accountID : UUID) (limit offset : Z) : Outcome (list Transaction) :=
  on_pool d
    (exists_ ← AccountRepository.Exists env accountID;
     if negb exists_
     then fail (ServiceError ErrCodeNotFound "Account not found")
     else
       let limit := if ((limit <=? 0)%Z || (100 <? limit)%Z)%bool
                    then 20%Z else limit in
       let offset := if (offset <? 0)%Z then 0%Z else offset in
       TransactionRepository.GetAccountTransactions env accountID limit offset).

End TransactionService.

(** ** internal/handler *)

Module handler.

Inductive Payload : Type :=
| ErrorJSON (message code : string)
| TransactionJSON (response : CreateTransactionResponse)
| BulkJSON (response : BulkTransferResponse)
| TransactionsJSON (accountID : UUID) (rows : list Transaction)
    (limit offset : Z).

Record Response : Type := mkHTTP {
  StatusCode : Z;
  Body : Payload
}.

(** What serving one request leaves behind. *)
Record Served : Type := mkServed {
  response : Response;
  served_database : Database;
  served_statements : list Statement
}.

Definition writeErrorResponse (statusCode : Z) (message code : string)
  : Response :=
  mkHTTP statusCode (ErrorJSON message code).

(** [handleServiceError]: the [switch] on the code of a
    [*service.ServiceError]; every other error is an unknown error. *)
Definition handleServiceError (err : error) : Response :=
  match err with
  | ServiceError code message =>
      if String.eqb code ErrCodeNotFound
      then writeErrorResponse 404 message code
      else if (String.eqb code ErrCodeValidation
               || String.eqb code ErrCodeInvalidInput)%bool
      then writeErrorResponse 400 message code
      else if String.eqb code ErrCodeInsufficientFunds
      then writeErrorResponse 422 message code
      else if String.eqb code ErrCodeConflict
      then writeErrorResponse 409 message code
      else writeErrorResponse 500 "Internal server error" ErrCodeInternalError
  | _ => writeErrorResponse 500 "Internal server error" ErrCodeInternalError
  end.

(** The digits of [strconv.Atoi], most significant first. *)
Fixpoint digits_value (s : string) (acc : Z) : option Z :=
  match s with
  | EmptyString => Some acc
  | String c rest =>
      let n := Z.of_nat (nat_of_ascii c) in
      if ((48 <=? n)%Z && (n <=? 57)%Z)%bool
      then digits_value rest (10 * acc + (n - 48))%Z
      else None
  end.

(** [strconv.Atoi]: an optional sign, at least one decimal digit, and a
    value that fits [int] (64 bits); [None] stands for [err != nil]. *)
Definition Atoi (s : string) : option Z :=
  let '(negative, body) :=
    match s with
    | String "-"%char rest => (true, rest)
    | String "+"%char rest => (false, rest)
    | _ => (false, s)
    end in
  match body with
  | EmptyString => None
  | _ =>
      match digits_value body 0 with
      | None => None
      | Some v =>
          let v := if negative then (- v)%Z else v in
          if ((- 2 ^ 63 <=? v)%Z && (v <? 2 ^ 63)%Z)%bool
          then Some v else None
      end
  end.

(** [parseQueryParams]; the arguments are [values.Get("limit")] and
    [values.Get("offset")], empty when the parameter is absent. *)
Definition parseQueryParams (limitStr offsetStr : string)
  : result (Z * Z) :=
  match
    (if String.eqb limitStr "" then Ok 20%Z
     else match Atoi limitStr with
          | Some limit =>
              if ((limit <=? 0)%Z || (100 <? limit)%Z)%bool
              then Err (ErrorString "invalid limit parameter")
              else Ok limit
          | None => Err (ErrorString "invalid limit parameter")
          end)
  with
  | Err e => Err e
  | Ok limit =>
      if String.eqb offsetStr "" then Ok (limit, 0%Z)
      else match Atoi offsetStr with
           | Some offset =>
               if (offset <? 0)%Z
               then Err (ErrorString "invalid offset parameter")
               else Ok (limit, offset)
           | None => Err (ErrorString "invalid offset parameter")
           end
  end.

(** [GetAccountTransactions], from the parsed account id on. *)
Definition GetAccountTransactions (env : Env) (d : Database)
    (accountID : UUID) (limitStr offsetStr : string) : Served :=
  match parseQueryParams limitStr offsetStr with
  | Err err =>
      mkServed (writeErrorResponse 400 (error_string err) ErrCodeInvalidInput)
        d []
  | Ok (limit, offset) =>
      let o :=
        TransactionService.GetAccountTransactions env d accountID limit offset in
      match returned o with
      | Err err =>
          mkServed (handleServiceError err) (database o) (statements o)
      | Ok rows =>
          mkServed (mkHTTP 200 (TransactionsJSON accountID rows limit offset))
            (database o) (statements o)
      end
  end.

(** The body of a POST, as far as the handler looks at it: not JSON at
    all; a JSON object with a [transfers] key, and what
    [json.Unmarshal] into a [BulkTransferRequest] makes of it; any other
    JSON value, and what [json.Unmarshal] into a
    [CreateTransactionRequest] makes of it ([None]: an error). *)
Inductive JSONBody : Type :=
| Malformed
| TransfersObject (decoded : option BulkTransferRequest)
| OtherValue (decoded : option CreateTransactionRequest).

Record Request : Type := mkHTTPRequest {
  Method : string;
  IdempotencyKey : string;
  ContentType : string;
  RawBody : string;
  Decoded : JSONBody
}.

(** [strings.Contains] *)
Fixpoint Contains (s substr : string) : bool :=
  String.prefix substr s ||
  match s with
  | EmptyString => false
  | String _ rest => Contains rest substr
  end.

(** [handleSingleTransfer] *)
Definition handleSingleTransfer (env : Env) (d : Database)
    (decoded : option CreateTransactionRequest) : Served :=
  match decoded with
  | None =>
      mkServed
        (writeErrorResponse 400 "Invalid transaction request"
           ErrCodeInvalidInput) d []
  | Some req =>
      let o := TransactionService.CreateTransaction env d req in
      match returned o with
      | Err err =>
          mkServed (handleServiceError err) (database o) (statements o)
      | Ok resp =>
          mkServed (mkHTTP 201 (TransactionJSON resp)) (database o)
            (statements o)
      end
  end.

(** [handleBulkTransfer] *)
Definition handleBulkTransfer (envs : nat -> Env) (d : Database)
    (decoded : option BulkTransferRequest) : Served :=
  match decoded with
  | None =>
      mkServed
        (writeErrorResponse 400 "Invalid bulk transfer request"
           ErrCodeInvalidInput) d []
  | Some req =>
      let o := TransactionService.ProcessBulkTransfers envs d req in
      match returned o with
      | Err err =>
          mkServed (handleServiceError err) (database o) (statements o)
      | Ok resp =>
          let statusCode :=
            if (0 <? length (Bulk_Failed resp))%nat
            then if (length (Bulk_Transfers resp) =? 0)%nat
                 then 400%Z else 207%Z
            else 201%Z in
          mkServed (mkHTTP statusCode (BulkJSON resp)) (database o)
            (statements o)
      end
  end.

(** [CreateTransaction], POST /v1/transactions.  The header
    [Idempotency-Key] is read and dropped ([_ = idempotencyKey]). *)
Definition CreateTransaction (envs : nat -> Env) (d : Database)
    (r : Request) : Served :=
  if negb (String.eqb (Method r) "POST")
  then mkServed
         (writeErrorResponse 405 "Method not allowed" ErrCodeInvalidInput) d []
  else
    let idempotencyKey := IdempotencyKey r in
    if negb (Contains (ContentType r) "application/json")
    then mkServed
           (writeErrorResponse 400 "Content-Type must be application/json"
              ErrCodeInvalidInput) d []
    else match Decoded r with
         | Malformed =>
             mkServed
               (writeErrorResponse 400 "Invalid JSON" ErrCodeInvalidInput) d []
         | TransfersObject decoded => handleBulkTransfer envs d decoded
         | OtherValue decoded => handleSingleTransfer (envs 0) d decoded
         end.

End handler.

(** ** Observations on a database *)

Definition balance_of (d : Database) (id : UUID) : option Decimal :=
  Account_Balance <$> accounts d !! id.

(** The sum of all account balances. *)
Definition total_balance (d : Database) : Z :=
  map_fold (fun _ a acc => (Account_Balance a + acc)%Z) 0%Z (accounts d).






(** A repository computation surfaces driver faults: it only adds
    statements to the session, none of them COMMIT or ROLLBACK, and when
    the driver fails on one of them, the computation returns that failure,
    wrapped. *)
Definition surfaces_faults {A : Type} (env : Env) (m : Storage A) : Prop :=
  ∀ σ,
    ∃ l,
      issued (m σ).2 = (issued σ ++ l)%list ∧
      (COMMIT ∉ l) ∧ (ROLLBACK ∉ l) ∧
      ∀ n cause,
        (n < length l)%nat →
        fault env (length (issued σ) + n) = Some cause →
        ∃ context, (m σ).1 = Err (Wrapped context cause).

(** A response answers a request when it repeats its accounts, amount and
    reference. *)
Definition answers (resp : CreateTransactionResponse)
    (req : CreateTransactionRequest) : Prop :=
  Resp_SourceAccountID resp = SourceAccountID req ∧
  Resp_DestinationAccountID resp = DestinationAccountID req ∧
  Resp_Amount resp = Amount req ∧
  Resp_Reference resp = Reference req ∧
  Resp_Status resp = TransactionStatusCompleted.

(** The elements of a batch, numbered from [i], whose index is not in
    [failed], in the order of the batch. *)
Fixpoint elements_not_failed (failed : list nat) (i : nat)
    (reqs : list CreateTransactionRequest) : list CreateTransactionRequest :=
  match reqs with
  | [] => []
  | r :: rest =>
      if bool_decide (i ∈ failed)
      then elements_not_failed failed (S i) rest
      else r :: elements_not_failed failed (S i) rest
  end.

(** ** Sample data

    Amounts in currency units with two decimals: [money 150 25] is 150.25. *)

Definition money (whole hundredths : Z) : Decimal :=
  ((whole * 100 + hundredths) * 10 ^ 8)%Z.

Definition no_fault : nat -> option string := fun _ => None.

(** A call during which the driver never fails. *)
Definition calm (t : Time) (id : UUID) : Env := mkEnv no_fault t id.

(** A call whose [n]-th statement fails in the driver. *)
Definition failing_at (n : nat) (cause : string) (t : Time) (id : UUID) : Env :=
  mkEnv (fun k => if (k =? n)%nat then Some cause else None) t id.

Definition account1 : Account := mkAccount 1 (money 1000 0) 10 10.
Definition account2 : Account := mkAccount 2 (money 500 50) 20 20.
Definition account3 : Account := mkAccount 3 (money 5 0) 30 30.

Definition bank : Database :=
  mkDatabase (<[1%N := account1]> (<[2%N := account2]> (<[3%N := account3]> ∅)))
    [] ∅.

(** Scenario 2: 150.25 from account 1 to account 2. *)
Definition transfer_1_to_2 : CreateTransactionRequest :=
  mkRequest (Some 1%N) 2%N (money 150 25) (Some "demo-payment").

(** Scenario 3: 10.00 from account 3, which holds 5.00. *)
Definition overdraw_3 : CreateTransactionRequest :=
  mkRequest (Some 3%N) 2%N (money 10 0) None.


(** Scenario 4: a deposit of 100.00 to account 1. *)
Definition deposit_1 : CreateTransactionRequest :=
  mkRequest None 1%N (money 100 0) None.

Definition zero_amount : CreateTransactionRequest :=
  mkRequest (Some 1%N) 2%N 0%Z None.

(** Scenario 5: three transfers, the second with a zero amount. *)
Definition bulk_with_zero_amount : BulkTransferRequest :=
  mkBulkRequest [transfer_1_to_2; zero_amount; transfer_1_to_2].

(** Three transfers, the second beyond the funds of its source. *)
Definition bulk_with_overdraw : BulkTransferRequest :=
  mkBulkRequest [transfer_1_to_2; overdraw_3; transfer_1_to_2].

(** The environments of the calls of one batch: no fault, time 100, and
    the element index as generated id. *)
Definition calm_batch : nat -> Env := fun i => calm 100 (N.of_nat (100 + i)).

(** A database whose account 1 received 25 deposits, one per second. *)
Definition busy_bank : Database :=
  mkDatabase (accounts bank)
    (map (fun i =>
            mkTransaction (N.of_nat i) None 1%N (money 1 0) None
              TransactionStatusCompleted (Z.of_nat i) (Some (Z.of_nat i)))
       (seq 0 25))
    ∅.

(** A completed idempotency record, valid until instant 100000. *)
Definition stored_reply (keyHash body : string) : IdempotencyRecord :=
  mkIdempotencyRecord keyHash body (Some "{...}") (Some 201%Z) 50 100000.

(** A deposit request carrying an idempotency key. *)
Definition keyed_deposit : handler.Request :=
  handler.mkHTTPRequest "POST" "key-1" "application/json" "{deposit}"
    (handler.OtherValue (Some deposit_1)).

(** Account 1 as it is last written at instant 500. *)
Definition late_bank : Database :=
  mkDatabase (<[1%N := mkAccount 1 (money 1000 0) 10 500]> ∅) [] ∅.

(** ** Further functions of the repositories and services *)

(** [TransactionRepository.GetByReference]: [SELECT ... FROM transactions
    WHERE reference = $1 ORDER BY created_at DESC LIMIT 1], one statement
    on the pool; [fault env 0] is the driver error it may fail with. *)
Definition GetByReference (env : Env) (d : Database) (reference : string)
  : result Transaction :=
  match fault env 0 with
  | Some cause => Err (Wrapped "failed to get transaction by reference" cause)
  | None =>
      match
        TransactionRepository.order_by_created_at_desc
          (List.filter
             (fun t =>
                match Tx_Reference t with
                | Some r => String.eqb r reference
                | None => false
                end)
             (transactions d))
      with
      | transaction :: _ => Ok transaction
      | [] => Err ErrTransactionNotFound
      end
  end.

(** [IdempotencyRepository.CleanupExpired]: [DELETE FROM idempotency_keys
    WHERE expires_at < NOW()], one statement on the pool; the number
    returned is [RowsAffected]. *)
Definition CleanupExpired (env : Env) (d : Database) : result Z * Database :=
  match fault env 0 with
  | Some cause =>
      (Err (Wrapped "failed to cleanup expired idempotency keys" cause), d)
  | None =>
      let kept :=
        filter (fun kr => ¬ (ExpiresAt kr.2 < now env)%Z) (idempotency_keys d) in
      (Ok (Z.of_nat (size (idempotency_keys d) - size kept)),
       set_idempotency_keys d kept)
  end.

(** [AccountService.CheckAccountExists] *)
Definition CheckAccountExists (env : Env) (d : Database) (id : UUID)
  : Outcome unit :=
  on_pool d
    (exists_ ← AccountRepository.Exists env id;
     if negb exists_
     then fail (ServiceError ErrCodeNotFound "Account not found")
     else mret tt).

(** ** Further observations *)

(** A row of [transactions] obeys the constraints of the table that
    mention its own columns and the accounts it refers to. *)
Definition row_consistent (d : Database) (t : Transaction) : Prop :=
  (0 < Tx_Amount t)%Z ∧
  Tx_SourceAccountID t ≠ Some (Tx_DestinationAccountID t) ∧
  has_account d (Tx_DestinationAccountID t) = true ∧
  match Tx_SourceAccountID t with
  | Some s => has_account d s = true
  | None => True
  end.

(** The transfer rows have distinct ids and are all consistent. *)
Definition ledger_consistent (d : Database) : Prop :=
  NoDup (map Tx_ID (transactions d)) ∧
  Forall (row_consistent d) (transactions d).

(** No transfer row is left in status [pending]. *)
Definition none_pending (d : Database) : Prop :=
  Forall (fun t => Tx_Status t ≠ TransactionStatusPending) (transactions d).

(** The money a list of responses brought in from outside: the amounts of
    the deposits (responses without a source account). *)
Fixpoint deposited (resps : list CreateTransactionResponse) : Z :=
  match resps with
  | [] => 0%Z
  | r :: rest =>
      (match Resp_SourceAccountID r with
       | Some _ => 0
       | None => Resp_Amount r
       end + deposited rest)%Z
  end.

(** Rows listed newest first: every row is at least as recent as all the
    rows after it. *)
Fixpoint newest_first (l : list Transaction) : Prop :=
  match l with
  | [] => True
  | t :: rest =>
      Forall (fun u => (Tx_CreatedAt u <= Tx_CreatedAt t)%Z) rest ∧
      newest_first rest
  end.

(** The statements of a transfer that reaches its commit, for a source
    holding [sourceBalance] and a destination holding [destBalance]. *)
Definition transfer_statements (env : Env) (req : CreateTransactionRequest)
    (sourceBalance destBalance : Decimal) : list Statement :=
  [BEGIN] ++
  match SourceAccountID req with
  | Some s => [SelectBalanceForUpdate s]
  | None => []
  end ++
  [SelectBalanceForUpdate (DestinationAccountID req); InsertTransaction req] ++
  match SourceAccountID req with
  | Some s =>
      [SelectBalanceForUpdate s;
       UpdateAccountBalance s (sourceBalance - Amount req)%Z]
  | None => []
  end ++
  [SelectBalanceForUpdate (DestinationAccountID req);
   UpdateAccountBalance (DestinationAccountID req) (destBalance + Amount req)%Z;
   UpdateTransactionStatus (fresh_id env) TransactionStatusCompleted;
   COMMIT].

(** The row [CreateTransaction] leaves for a request it completes. *)
Definition completed_row (env : Env) (req : CreateTransactionRequest)
  : Transaction :=
  mkTransaction (fresh_id env) (SourceAccountID req) (DestinationAccountID req)
    (Amount req) (Reference req) TransactionStatusCompleted (now env)
    (Some (now env)).

(** ** Further sample data *)

(** A transfer from an account that does not exist. *)
Definition from_nowhere : CreateTransactionRequest :=
  mkRequest (Some 9%N) 2%N (money 1 0) None.

(** A transfer to an account that does not exist. *)
Definition to_nowhere : CreateTransactionRequest :=
  mkRequest (Some 1%N) 9%N (money 1 0) None.

(** Two deposits and a transfer, all valid. *)
Definition bulk_with_deposits : BulkTransferRequest :=
  mkBulkRequest [deposit_1; transfer_1_to_2; deposit_1].

(** A bank with three transfers, two of them with the reference "rent". *)
Definition referenced_bank : Database :=
  mkDatabase (accounts bank)
    [mkTransaction 11 (Some 1%N) 2 (money 1 0) (Some "rent")
       TransactionStatusCompleted 100 (Some 100%Z);
     mkTransaction 12 (Some 1%N) 2 (money 2 0) (Some "rent")
       TransactionStatusCompleted 300 (Some 300%Z);
     mkTransaction 13 None 3 (money 3 0) (Some "gift")
       TransactionStatusPending 200 None]
    ∅.

(** Idempotency records, one expired at instant 1000 and one valid. *)
Definition keyed_bank : Database :=
  mkDatabase (accounts bank) []
    (<["old" := mkIdempotencyRecord "old" "{a}" (Some "{r}") (Some 201%Z) 0 900]>
       (<["new" := mkIdempotencyRecord "new" "{b}" None None 500 5000]> ∅)).

(** * Properties *)

(** Unfolds the repository calls down to [exec] on explicit sessions. *)
Ltac unfold_storage :=
  unfold TransactionService.transfer,
    AccountRepository.GetBalanceForUpdate, AccountRepository.UpdateBalance,
    AccountRepository.GetBalanceAt, AccountRepository.GetByID,
    AccountRepository.Exists, AccountRepository.Create,
    TransactionRepository.Create, TransactionRepository.UpdateStatus,
    TransactionRepository.GetAccountTransactions,
    on_pool, mbind, Storage_bind, on_error, exec, fail, mret, Storage_ret in *;
  simpl in *.

(** Splits on every test the code makes, dropping impossible branches. *)
Ltac split_paths := repeat (case_match; simplify_eq/=).

(** ** Rows and constraints *)

Lemma accounts_row_check_None a :
  accounts_row_check a = None → (0 <= Account_Balance a)%Z.
Proof.
  unfold accounts_row_check. intros H.
  destruct (numeric_38_10 (Account_Balance a)); [simpl in H|done].
  destruct (Account_Balance a <? 0)%Z eqn:E; [done|]. lia.
Qed.


Lemma transactions_row_check_None d t :
  transactions_row_check d t = None →
  (0 < Tx_Amount t)%Z ∧ Tx_SourceAccountID t ≠ Some (Tx_DestinationAccountID t).
Proof.
  unfold transactions_row_check. intros H.
  repeat (case_match; simplify_eq/=); split; try lia; try congruence.
  all: try (intros [= ->]; rewrite N.eqb_refl in *; done).
Qed.

(** ** Sums of balances *)



(** ** The statements of one transfer *)

(** A transfer that reaches its end has moved [Amount req] from the source
    row, if any, to the destination row, and both new rows passed the
    checks of the table. *)
Lemma transfer_Ok env req d log t σ :
  TransactionService.transfer env req (mkSession d log) = (Ok t, σ) →
  ∃ da,
    accounts d !! DestinationAccountID req = Some da ∧
    (0 <= Account_Balance da + Amount req)%Z ∧
    match SourceAccountID req with
    | Some s =>
        ∃ sa,
          accounts d !! s = Some sa ∧ s ≠ DestinationAccountID req ∧
          (0 <= Account_Balance sa - Amount req)%Z ∧
          accounts (store σ) =
            <[DestinationAccountID req :=
                AccountRepository.with_balance env
                  (Account_Balance da + Amount req) da]>
              (<[s := AccountRepository.with_balance env
                        (Account_Balance sa - Amount req) sa]> (accounts d))
    | None =>
        accounts (store σ) =
          <[DestinationAccountID req :=
              AccountRepository.with_balance env
                (Account_Balance da + Amount req) da]> (accounts d)
    end.
Proof.
  intros H. unfold_storage. split_paths.
  - match goal with
    | Hc : transactions_row_check _ _ = None |- _ =>
        apply transactions_row_check_None in Hc as [_ Hne]; simpl in Hne
    end.
    assert (n ≠ DestinationAccountID req) as Hne' by congruence.
    rewrite lookup_insert_ne in * by done. simplify_eq.
    eexists; split; [done|].
    split; [by eapply (accounts_row_check_None (AccountRepository.with_balance _ _ _))|].
    eexists; repeat split; try done.
    by eapply (accounts_row_check_None (AccountRepository.with_balance _ _ _)).
  - eexists; split; [done|].
    split; [by eapply (accounts_row_check_None (AccountRepository.with_balance _ _ _))|].
    done.
Qed.

(** ** One call of [CreateTransaction] *)


(** Rollback: a call that returns an error leaves the data as it was. *)
Lemma CreateTransaction_Err env d req e :
  returned (TransactionService.CreateTransaction env d req) = Err e →
  database (TransactionService.CreateTransaction env d req) = d.
Proof.
  unfold TransactionService.CreateTransaction. intros H.
  destruct (model.Validate req) as [[]|]; try done.
  destruct (fault env 0); [done|].
  destruct (TransactionService.transfer env req _) as [[t|e'] σ]; [|done].
  by destruct (fault env (length (issued σ))).
Qed.








(** Scenario 2 of the specification, run on the model. *)
Example scenario_2_transfer :
  let o := TransactionService.CreateTransaction (calm 100 7) bank transfer_1_to_2 in
  balance_of (database o) 1%N = Some (money 849 75) ∧
  balance_of (database o) 2%N = Some (money 650 75) ∧
  (Resp_Status <$> match returned o with Ok r => Some r | Err _ => None end)
    = Some TransactionStatusCompleted ∧
  map Tx_Status (transactions (database o)) = [TransactionStatusCompleted].
Proof. by vm_compute. Qed.

(** Scenario 4: a deposit has no source and credits the destination. *)
Example scenario_4_deposit :
  let o := TransactionService.CreateTransaction (calm 100 7) bank deposit_1 in
  balance_of (database o) 1%N = Some (money 1100 0) ∧
  (Resp_SourceAccountID <$>
     match returned o with Ok r => Some r | Err _ => None end) = Some None.
Proof. by vm_compute. Qed.


(** ** Validation *)


(** What [Validate] answers, rule by rule, in the order of the source. *)
Lemma Validate_cases req :
  (Amount req <= 0)%Z ∧
    model.Validate req =
      Some (ValidationError "amount" "amount must be positive")
  ∨ (0 < Amount req)%Z ∧
    SourceAccountID req = Some (DestinationAccountID req) ∧
    model.Validate req =
      Some (ValidationError "destination_account_id"
              "source and destination accounts cannot be the same")
  ∨ (0 < Amount req)%Z ∧
    SourceAccountID req ≠ Some (DestinationAccountID req) ∧
    (∃ ref, Reference req = Some ref ∧ (255 < String.length ref)%nat) ∧
    model.Validate req =
      Some (ValidationError "reference" "reference cannot exceed 255 characters")
  ∨ (0 < Amount req)%Z ∧
    SourceAccountID req ≠ Some (DestinationAccountID req) ∧
    (∀ ref, Reference req = Some ref → (String.length ref ≤ 255)%nat) ∧
    model.Validate req = None.
Proof.
  unfold model.Validate.
  destruct (Amount req =? 0)%Z eqn:E0; simpl; [left; split; [lia|done]|].
  destruct (Amount req <? 0)%Z eqn:E1; simpl; [left; split; [lia|done]|].
  right.
  assert (0 < Amount req)%Z by lia.
  destruct (SourceAccountID req) as [s|] eqn:Es.
  - destruct (s =? DestinationAccountID req)%N eqn:E2.
    + left. apply N.eqb_eq in E2 as ->. done.
    + apply N.eqb_neq in E2. right.
      assert (Some s ≠ Some (DestinationAccountID req)) by congruence.
      destruct (Reference req) as [ref|]; [|right; naive_solver].
      destruct (255 <? String.length ref)%nat eqn:E3.
      * left. apply Nat.ltb_lt in E3. naive_solver.
      * right. apply Nat.ltb_ge in E3. naive_solver.
  - right. destruct (Reference req) as [ref|]; [|right; naive_solver].
    destruct (255 <? String.length ref)%nat eqn:E3.
    + left. apply Nat.ltb_lt in E3. naive_solver.
    + right. apply Nat.ltb_ge in E3. naive_solver.
Qed.




(** ** Insufficient funds *)





(** ** The account store *)



(** ** Historical balance *)

(** C10. For an account that exists, a balance query at an instant
    strictly before the [updated_at] of its row is answered NOT_FOUND,
    "Account not found", although [GetAccount] returns the account. *)
Theorem balance_before_last_update_is_not_found env d id a t :
  accounts d !! id = Some a →
  (t < Account_UpdatedAt a)%Z →
  fault env 0 = None →
  returned (AccountService.GetAccountBalance env d id (Some t))
  = Err (ServiceError ErrCodeNotFound "Account not found") ∧
  returned (AccountService.GetAccount env d id) = Ok a.
Proof.
  intros Ha Ht Hf. unfold AccountService.GetAccountBalance, AccountService.GetAccount.
  unfold_storage. rewrite Hf, Ha. simpl.
  destruct (Account_UpdatedAt a <=? t)%Z eqn:E; [lia|]. done.
Qed.

Lemma balance_before_last_update_witness :
  returned (AccountService.GetAccountBalance (calm 600 7) late_bank 1%N (Some 499%Z))
  = Err (ServiceError "NOT_FOUND" "Account not found") ∧
  returned (AccountService.GetAccount (calm 600 7) late_bank 1%N)
  = Ok (mkAccount 1 (money 1000 0) 10 500).
Proof.
  apply (balance_before_last_update_is_not_found (calm 600 7) late_bank 1%N
           (mkAccount 1 (money 1000 0) 10 500) 499%Z);
    [reflexivity | by vm_compute | reflexivity].
Defined.

(** ** Failures of the storage layer *)

Lemma surfaces_ret {A} env (a : A) : surfaces_faults env (mret a).
Proof.
  intros σ. exists []. rewrite app_nil_r.
  repeat split; try done; try apply not_elem_of_nil. simpl. lia.
Qed.

Lemma surfaces_fail {A} env e : surfaces_faults env (@fail A e).
Proof.
  intros σ. exists []. rewrite app_nil_r.
  repeat split; try done; try apply not_elem_of_nil. simpl. lia.
Qed.

Lemma surfaces_exec {A} env s context (run : Database → string + (A * Database)) :
  s ≠ COMMIT → s ≠ ROLLBACK → surfaces_faults env (exec env s context run).
Proof.
  intros Hc Hr σ. exists [s]. unfold exec.
  split; [by repeat case_match|].
  split; [intros ?%list_elem_of_singleton; congruence|].
  split; [intros ?%list_elem_of_singleton; congruence|].
  intros n cause Hn Hf. simpl in Hn.
  assert (n = 0) as -> by lia. rewrite Nat.add_0_r in Hf. rewrite Hf.
  by eexists.
Qed.

Lemma surfaces_bind {A B} env (m : Storage A) (f : A → Storage B) :
  surfaces_faults env m → (∀ a, surfaces_faults env (f a)) →
  surfaces_faults env (m ≫= f).
Proof.
  intros Hm Hf σ. unfold mbind, Storage_bind.
  destruct (Hm σ) as (l1 & Hl1 & Hc1 & Hr1 & Hf1).
  destruct (m σ) as [[a|e] σ1]; simpl in *.
  - destruct (Hf a σ1) as (l2 & Hl2 & Hc2 & Hr2 & Hf2).
    exists (l1 ++ l2)%list. rewrite Hl2, Hl1, app_assoc.
    split; [done|].
    split; [by intros [?|?]%elem_of_app|].
    split; [by intros [?|?]%elem_of_app|].
    intros n cause Hn Hfault. rewrite length_app in Hn.
    destruct (decide (n < length l1)) as [Hlt|Hge].
    + by destruct (Hf1 n cause Hlt Hfault).
    + apply (Hf2 (n - length l1) cause); [lia|].
      rewrite Hl1, length_app.
      by replace (length (issued σ) + length l1 + (n - length l1))
        with (length (issued σ) + n) by lia.
  - exists l1. split; [done|]. split; [done|]. split; [done|].
    intros n cause Hn Hfault.
    destruct (Hf1 n cause Hn Hfault) as [context [= ->]]. by exists context.
Qed.

Lemma surfaces_on_error {A} env (m : Storage A) (f : error → error) :
  (∀ context cause, f (Wrapped context cause) = Wrapped context cause) →
  surfaces_faults env m → surfaces_faults env (on_error m f).
Proof.
  intros Hw Hm σ. unfold on_error.
  destruct (Hm σ) as (l & Hl & Hc & Hr & Hf).
  destruct (m σ) as [[a|e] σ1]; simpl in *; exists l;
    (split; [done|]; split; [done|]; split; [done|]).
  - exact Hf.
  - intros n cause Hn Hfault.
    destruct (Hf n cause Hn Hfault) as [context [= ->]].
    exists context. by rewrite Hw.
Qed.

Lemma GetBalanceForUpdate_surfaces_faults env id :
  surfaces_faults env (AccountRepository.GetBalanceForUpdate env id).
Proof.
  apply surfaces_bind; [by apply surfaces_exec|].
  intros [a|]; [apply surfaces_ret | apply surfaces_fail].
Qed.

Lemma UpdateBalance_surfaces_faults env id newBalance :
  surfaces_faults env (AccountRepository.UpdateBalance env id newBalance).
Proof.
  apply surfaces_bind; [by apply surfaces_exec|].
  intros rows. destruct (rows =? 0)%Z; [apply surfaces_fail | apply surfaces_ret].
Qed.

Lemma UpdateStatus_surfaces_faults env id status :
  surfaces_faults env (TransactionRepository.UpdateStatus env id status).
Proof.
  apply surfaces_bind; [by apply surfaces_exec|].
  intros rows. destruct (rows =? 0)%Z; [apply surfaces_fail | apply surfaces_ret].
Qed.

(** The statements of a transfer are row statements, and the first driver
    failure among them is what the transfer returns. *)
Lemma transfer_surfaces_faults env req :
  surfaces_faults env (TransactionService.transfer env req).
Proof.
  unfold TransactionService.transfer.
  repeat first
    [ apply surfaces_bind; [|intros ?]
    | apply surfaces_on_error; [done|]
    | apply GetBalanceForUpdate_surfaces_faults
    | apply UpdateBalance_surfaces_faults
    | apply UpdateStatus_surfaces_faults
    | apply surfaces_ret
    | apply surfaces_fail
    | by apply surfaces_exec
    | case_match ].
Qed.




(** ** Listing the transfers of an account *)





(** ** Bulk transfers *)

(** The row a transfer returns is the pending row built from the request. *)
Lemma transfer_row env req σ0 t σ :
  TransactionService.transfer env req σ0 = (Ok t, σ) →
  t = mkTransaction (fresh_id env) (SourceAccountID req)
        (DestinationAccountID req) (Amount req) (Reference req)
        TransactionStatusPending (now env) None.
Proof. intros H. unfold_storage. by split_paths. Qed.

Lemma CreateTransaction_answers env d req resp :
  returned (TransactionService.CreateTransaction env d req) = Ok resp →
  answers resp req.
Proof.
  unfold TransactionService.CreateTransaction. intros H.
  destruct (model.Validate req) as [[]|]; try done.
  destruct (fault env 0); [done|].
  destruct (TransactionService.transfer env req _) as [[t|e] σ] eqn:Ht; [|done].
  destruct (fault env (length (issued σ))); [done|].
  apply transfer_row in Ht as ->. simpl in H. by injection H as <-.
Qed.

(** A valid request makes [CreateTransaction] open a transaction. *)
Lemma CreateTransaction_begins env d req :
  model.Validate req = None →
  ∃ l, statements (TransactionService.CreateTransaction env d req) = BEGIN :: l.
Proof.
  unfold TransactionService.CreateTransaction. intros ->.
  destruct (fault env 0); [by eexists|].
  destruct (transfer_surfaces_faults env req (mkSession d [BEGIN]))
    as (l & Hl & _).
  destruct (TransactionService.transfer env req _) as [[t|e] σ]; simpl in *.
  - destruct (fault env (length (issued σ))); rewrite Hl; by eexists.
  - rewrite Hl. by eexists.
Qed.

Lemma elements_not_failed_below k failed reqs : ∀ i,
  k < i →
  elements_not_failed (k :: failed) i reqs = elements_not_failed failed i reqs.
Proof.
  induction reqs as [|r rest IH]; intros i Hk; simpl; [done|].
  rewrite (IH (S i)) by lia.
  destruct (bool_decide (i ∈ failed)) eqn:E.
  - apply bool_decide_eq_true in E. rewrite bool_decide_eq_true_2; [done|].
    by apply elem_of_cons; right.
  - apply bool_decide_eq_false in E. rewrite bool_decide_eq_false_2; [done|].
    intros [->|?]%elem_of_cons; [lia|done].
Qed.

(** The invariant of the loop of [ProcessBulkTransfers]: from element [i]
    on, every element adds one response or one failure entry with its own
    index, and the statements of its call. *)
Lemma process_spec envs reqs : ∀ i response d log,
  ∃ ts fs l,
    returned (TransactionService.process envs i reqs response d log)
    = Ok (mkBulkResponse (Bulk_Transfers response ++ ts)
            (Bulk_Failed response ++ fs)) ∧
    statements (TransactionService.process envs i reqs response d log)
    = (log ++ l)%list ∧
    length ts + length fs = length reqs ∧
    Forall (fun k => i ≤ k < i + length reqs) (map TE_Index fs) ∧
    NoDup (map TE_Index fs) ∧
    Forall2 answers ts (elements_not_failed (map TE_Index fs) i reqs).
Proof.
  induction reqs as [|r rest IH]; intros i response d log; simpl.
  { exists [], [], []. rewrite !app_nil_r. destruct response.
    repeat split; simpl; by constructor. }
  destruct (returned (TransactionService.CreateTransaction (envs i) d r))
    as [resp|e] eqn:Hr.
  - destruct (IH (S i)
                (mkBulkResponse (Bulk_Transfers response ++ [resp])
                   (Bulk_Failed response))
                (database (TransactionService.CreateTransaction (envs i) d r))
                (log ++ statements
                          (TransactionService.CreateTransaction (envs i) d r))%list)
      as (ts & fs & l & -> & -> & Hlen & Hidx & Hnd & Hans).
    exists (resp :: ts), fs, (statements
                 (TransactionService.CreateTransaction (envs i) d r) ++ l)%list.
    simpl. rewrite <- !app_assoc. simpl.
    repeat split; try done; try lia.
    + eapply Forall_impl; [exact Hidx|]. simpl. lia.
    + rewrite bool_decide_eq_false_2.
      * constructor; [by eapply CreateTransaction_answers|done].
      * intros Hin. rewrite Forall_forall in Hidx.
        specialize (Hidx _ Hin). lia.
  - destruct (IH (S i)
                (mkBulkResponse (Bulk_Transfers response)
                   (Bulk_Failed response ++
                    [mkTransferError i (error_string e)
                       (TransactionService.failure_code e)]))
                (database (TransactionService.CreateTransaction (envs i) d r))
                (log ++ statements
                          (TransactionService.CreateTransaction (envs i) d r))%list)
      as (ts & fs & l & -> & -> & Hlen & Hidx & Hnd & Hans).
    exists ts,
      (mkTransferError i (error_string e) (TransactionService.failure_code e)
       :: fs),
      (statements (TransactionService.CreateTransaction (envs i) d r) ++ l)%list.
    simpl. rewrite <- !app_assoc. simpl.
    repeat split; try done; try lia.
    + constructor; [lia|].
      eapply Forall_impl; [exact Hidx|]. simpl. lia.
    + constructor; [|done].
      intros Hin. rewrite Forall_forall in Hidx. specialize (Hidx _ Hin). lia.
    + rewrite bool_decide_eq_true_2 by (apply elem_of_cons; by left).
      by rewrite elements_not_failed_below by lia.
Qed.

(** C9. A bulk request that passes [Validate] gets a response in which
    every element has exactly one outcome: the responses and the failure
    entries are together as many as the elements, no index occurs twice
    among the failures, every failure index is that of an element, and the
    responses answer, in the order of the batch, exactly the elements whose
    index is not among the failures. *)
Theorem bulk_one_outcome_per_element envs d req :
  model.ValidateBulk req = None →
  ∃ resp,
    returned (TransactionService.ProcessBulkTransfers envs d req) = Ok resp ∧
    length (Bulk_Transfers resp) + length (Bulk_Failed resp)
    = length (Transfers req) ∧
    NoDup (map TE_Index (Bulk_Failed resp)) ∧
    Forall (fun k => k < length (Transfers req))
      (map TE_Index (Bulk_Failed resp)) ∧
    Forall2 answers (Bulk_Transfers resp)
      (elements_not_failed (map TE_Index (Bulk_Failed resp)) 0 (Transfers req)).
Proof.
  intros Hv. unfold TransactionService.ProcessBulkTransfers. rewrite Hv.
  destruct (process_spec envs (Transfers req) 0 (mkBulkResponse [] []) d [])
    as (ts & fs & l & -> & _ & Hlen & Hidx & Hnd & Hans).
  eexists. split; [done|]. simpl. repeat split; try done.
  eapply Forall_impl; [exact Hidx|]. simpl. lia.
Qed.

Lemma bulk_one_outcome_witness :
  model.ValidateBulk bulk_with_overdraw = None ∧
  ∃ resp,
    returned (TransactionService.ProcessBulkTransfers calm_batch bank
                bulk_with_overdraw) = Ok resp ∧
    length (Bulk_Transfers resp) + length (Bulk_Failed resp) = 3.
Proof.
  split; [reflexivity|].
  destruct (bulk_one_outcome_per_element calm_batch bank bulk_with_overdraw)
    as (resp & Hr & Hlen & _); [reflexivity|].
  exists resp. split; [exact Hr | exact Hlen].
Defined.

Lemma Validate_only_ValidationError req e :
  model.Validate req = Some e → ∃ field message, e = ValidationError field message.
Proof.
  destruct (Validate_cases req)
    as [(_ & ->)|[(_ & _ & ->)|[(_ & _ & _ & ->)|(_ & _ & _ & ->)]]];
    intros [= <-]; by do 2 eexists.
Qed.

Lemma validate_each_invalid ts : ∀ i r,
  r ∈ ts → model.Validate r ≠ None →
  ∃ field message,
    model.validate_each i ts = Some (ValidationError field message).
Proof.
  induction ts as [|t rest IH]; intros i r Hin Hbad; [by inversion Hin|].
  simpl. destruct (model.Validate t) as [e|] eqn:Ht.
  - destruct (Validate_only_ValidationError _ _ Ht) as (f & m & ->).
    by do 2 eexists.
  - apply elem_of_cons in Hin as [->|Hin]; [done|]. by eapply IH.
Qed.

Lemma validate_each_None ts : ∀ i r,
  model.validate_each i ts = None → r ∈ ts → model.Validate r = None.
Proof.
  induction ts as [|t rest IH]; intros i r Hv Hin; [by inversion Hin|].
  simpl in Hv. destruct (model.Validate t) as [[]|] eqn:Ht; try done.
  apply elem_of_cons in Hin as [->|Hin]; [done|]. by eapply IH.
Qed.

Lemma ValidateBulk_None req r :
  model.ValidateBulk req = None → r ∈ Transfers req → model.Validate r = None.
Proof.
  unfold model.ValidateBulk. intros Hv Hin.
  destruct (length (Transfers req) =? 0)%nat; [done|].
  destruct (100 <? length (Transfers req))%nat; [done|].
  by eapply validate_each_None.
Qed.

(** The loop over [pre ++ post] is the loop over [pre] followed by the
    loop over [post]: what happens to an element does not depend on the
    elements after it. *)
Lemma process_app envs pre post : ∀ i response d log,
  TransactionService.process envs i (pre ++ post) response d log
  = let p := TransactionService.process envs i pre response d log in
    match returned p with
    | Ok rp =>
        TransactionService.process envs (length pre + i) post rp (database p)
          (statements p)
    | Err _ => p
    end.
Proof.
  induction pre as [|r rest IH]; intros i response d log; simpl; [done|].
  destruct (returned (TransactionService.CreateTransaction (envs i) d r));
    rewrite IH; simpl; by rewrite Nat.add_succ_r.
Qed.

(** C2, as amended.  A batch with an element that fails [Validate] is
    refused as a whole with a [ValidationError], before any statement is
    sent and with the data unchanged.  In a batch that passes validation,
    every element is executed by its own call of [CreateTransaction], on
    the data left by the elements before it and whatever their outcome:
    the statements of that call are part of the statements of the batch,
    and its response is in the list of successes or its error is in the
    list of failures under the index of the element. *)
Theorem bulk_validates_first_then_isolates_failures :
  (∀ envs d req r,
     r ∈ Transfers req →
     model.Validate r ≠ None →
     let o := TransactionService.ProcessBulkTransfers envs d req in
     ∃ field message,
       returned o = Err (ValidationError field message) ∧
       database o = d ∧
       statements o = []) ∧
  (∀ envs d req i r,
     model.ValidateBulk req = None →
     Transfers req !! i = Some r →
     let o := TransactionService.ProcessBulkTransfers envs d req in
     let before :=
       TransactionService.process envs 0 (take i (Transfers req))
         (mkBulkResponse [] []) d [] in
     let oi := TransactionService.CreateTransaction (envs i) (database before) r in
     ∃ resp l1 l2 l,
       returned o = Ok resp ∧
       statements o = (l1 ++ statements oi ++ l2)%list ∧
       statements oi = BEGIN :: l ∧
       match returned oi with
       | Ok t => t ∈ Bulk_Transfers resp
       | Err e =>
           mkTransferError i (error_string e) (TransactionService.failure_code e)
             ∈ Bulk_Failed resp
       end).
Proof.
  split.
  - intros envs d req r Hin Hbad o. subst o.
    unfold TransactionService.ProcessBulkTransfers, model.ValidateBulk.
    destruct (length (Transfers req) =? 0)%nat; [by do 2 eexists|].
    destruct (100 <? length (Transfers req))%nat; [by do 2 eexists|].
    destruct (validate_each_invalid (Transfers req) 0 r Hin Hbad)
      as (f & m & ->).
    by do 2 eexists.
  - intros envs d req i r Hv Hi o before oi.
    assert (model.Validate r = None) as Hr.
    { eapply ValidateBulk_None; [done|]. by eapply list_elem_of_lookup_2. }
    destruct (CreateTransaction_begins (envs i) (database before) r Hr)
      as [l Hl].
    subst o. unfold TransactionService.ProcessBulkTransfers. rewrite Hv.
    assert (TransactionService.process envs 0 (Transfers req)
              (mkBulkResponse [] []) d []
            = TransactionService.process envs 0
                (take i (Transfers req) ++ r :: drop (S i) (Transfers req))
                (mkBulkResponse [] []) d []) as ->
      by (by rewrite take_drop_middle).
    rewrite process_app. fold before. simpl.
    destruct (process_spec envs (take i (Transfers req)) 0
                (mkBulkResponse [] []) d [])
      as (ts0 & fs0 & l0 & Hr0 & Hs0 & _).
    fold before in Hr0, Hs0. rewrite Hr0. simpl in *.
    assert (length (take i (Transfers req)) + 0 = i) as ->.
    { rewrite length_take. apply lookup_lt_Some in Hi. lia. }
    fold oi. rewrite Hs0.
    destruct (returned oi) as [t|e] eqn:Hoi.
    + destruct (process_spec envs (drop (S i) (Transfers req)) (S i)
                  (mkBulkResponse (ts0 ++ [t]) fs0) (database oi)
                  (l0 ++ statements oi)%list)
        as (ts & fs & l2 & -> & -> & _).
      exists (mkBulkResponse ((ts0 ++ [t]) ++ ts) (fs0 ++ fs)), l0, l2, l.
      simpl. repeat split; try done.
      * by rewrite <- app_assoc.
      * rewrite !elem_of_app, list_elem_of_singleton. auto.
    + destruct (process_spec envs (drop (S i) (Transfers req)) (S i)
                  (mkBulkResponse ts0
                     (fs0 ++ [mkTransferError i (error_string e)
                                (TransactionService.failure_code e)]))
                  (database oi) (l0 ++ statements oi)%list)
        as (ts & fs & l2 & -> & -> & _).
      exists (mkBulkResponse (ts0 ++ ts)
                ((fs0 ++ [mkTransferError i (error_string e)
                            (TransactionService.failure_code e)]) ++ fs)),
        l0, l2, l.
      simpl. repeat split; try done.
      * by rewrite <- app_assoc.
      * rewrite !elem_of_app, list_elem_of_singleton. auto.
Qed.

Lemma bulk_validates_first_witness :
  (∃ field message,
     returned (TransactionService.ProcessBulkTransfers calm_batch bank
                 bulk_with_zero_amount)
     = Err (ValidationError field message)) ∧
  (∃ resp,
     returned (TransactionService.ProcessBulkTransfers calm_batch bank
                 bulk_with_overdraw) = Ok resp ∧
     mkTransferError 1 "Insufficient funds in source account" "INSUFFICIENT_FUNDS"
       ∈ Bulk_Failed resp).
Proof.
  destruct bulk_validates_first_then_isolates_failures as [Hall Heach].
  split.
  - destruct (Hall calm_batch bank bulk_with_zero_amount zero_amount)
      as (f & m & Hr & _).
    + apply list_elem_of_lookup. by exists 1.
    + by vm_compute.
    + by exists f, m.
  - destruct (Heach calm_batch bank bulk_with_overdraw 1 overdraw_3)
      as (resp & l1 & l2 & l & Hr & _ & _ & Hin);
      [reflexivity | reflexivity |].
    exists resp. split; [exact Hr|]. exact Hin.
Defined.

(** Partial success exists for failures other than validation: the second
    of three transfers lacks funds, the other two are executed. *)
Example bulk_partial_success :
  let s := handler.handleBulkTransfer calm_batch bank (Some bulk_with_overdraw) in
  handler.StatusCode (handler.response s) = 207%Z ∧
  match handler.Body (handler.response s) with
  | handler.BulkJSON resp =>
      length (Bulk_Transfers resp) = 2 ∧
      Bulk_Failed resp =
        [mkTransferError 1 "Insufficient funds in source account"
           "INSUFFICIENT_FUNDS"]
  | _ => False
  end ∧
  balance_of (handler.served_database s) 1%N = Some (money 699 50).
Proof. by vm_compute. Qed.

(** C2, as stated, fails on scenario 5: of three transfers the second has
    a zero amount; the batch is refused as a whole by its validation, no
    element is executed, and the handler answers 500. *)
Lemma bulk_with_zero_amount_is_refused_whole :
  let o := TransactionService.ProcessBulkTransfers calm_batch bank
             bulk_with_zero_amount in
  map Amount (Transfers bulk_with_zero_amount)
  = [money 150 25; 0%Z; money 150 25] ∧
  returned o =
    Err (ValidationError
           ("transfers[" +:+ model.string_of_rune 1 +:+ "].amount")
           "amount must be positive") ∧
  database o = bank ∧
  statements o = [] ∧
  ¬ (∃ resp, returned o = Ok resp ∧
             length (Bulk_Transfers resp) = 2 ∧
             map TE_Index (Bulk_Failed resp) = [1]) ∧
  handler.response
    (handler.handleBulkTransfer calm_batch bank (Some bulk_with_zero_amount))
  = handler.mkHTTP 500
      (handler.ErrorJSON "Internal server error" "INTERNAL_ERROR").
Proof.
  split; [done|]. split; [by vm_compute|]. split; [by vm_compute|].
  split; [by vm_compute|]. split; [|by vm_compute].
  intros (resp & Hr & _). vm_compute in Hr. discriminate Hr.
Qed.

(** ** Idempotency keys *)

(** C5 fails on the code.  Whatever the table [idempotency_keys] holds,
    and so also when it holds a completed, unexpired record for the
    request, the handler executes a request carrying an idempotency key
    each time it is submitted: after two submissions of the same deposit of
    100.00 with the same key, both are answered 201, two transfer rows
    exist, the balance has grown by 200.00, and no statement on
    [idempotency_keys] was sent. *)
Theorem idempotency_key_is_ignored (keys : gmap string IdempotencyRecord) :
  let d0 := mkDatabase (accounts bank) [] keys in
  let first := handler.CreateTransaction (fun _ => calm 100 101) d0 keyed_deposit in
  let second :=
    handler.CreateTransaction (fun _ => calm 200 102)
      (handler.served_database first) keyed_deposit in
  handler.IdempotencyKey keyed_deposit = "key-1" ∧
  handler.StatusCode (handler.response first) = 201%Z ∧
  handler.StatusCode (handler.response second) = 201%Z ∧
  handler.response second ≠ handler.response first ∧
  map Tx_ID (transactions (handler.served_database second)) = [101%N; 102%N] ∧
  balance_of d0 1%N = Some (money 1000 0) ∧
  balance_of (handler.served_database first) 1%N = Some (money 1100 0) ∧
  balance_of (handler.served_database second) 1%N = Some (money 1200 0) ∧
  idempotency_keys (handler.served_database second) = keys ∧
  Forall (fun s => match s with
                   | InsertIdempotencyKey _ | SelectIdempotencyKey _
                   | UpdateIdempotencyResponse _ => False
                   | _ => True
                   end)
    (handler.served_statements first ++ handler.served_statements second).
Proof.
  intros d0 first second.
  split; [done|]. split; [by vm_compute|]. split; [by vm_compute|].
  split; [by vm_compute|]. split; [by vm_compute|]. split; [by vm_compute|].
  split; [by vm_compute|]. split; [by vm_compute|]. split; [by vm_compute|].
  vm_compute. repeat constructor.
Qed.

(** The same, with a completed and unexpired record stored for the
    request. *)
Example stored_reply_is_not_replayed :
  let keys : gmap string IdempotencyRecord :=
    {[ "fingerprint" := stored_reply "fingerprint" "{deposit}" ]} in
  let d0 := mkDatabase (accounts bank) [] keys in
  let first := handler.CreateTransaction (fun _ => calm 100 101) d0 keyed_deposit in
  (∃ record,
     returned (on_pool d0 (IdempotencyRepository.GetRequest (calm 100 101)
                             "fingerprint")) = Ok (Some record) ∧
     ResponseStatus record = Some 201%Z) ∧
  handler.StatusCode (handler.response first) = 201%Z ∧
  balance_of (handler.served_database first) 1%N = Some (money 1100 0) ∧
  length (transactions (handler.served_database first)) = 1.
Proof.
  split; [eexists; split; by vm_compute|].
  split; [by vm_compute|]. split; by vm_compute.
Qed.

(** * Further properties *)

(** ** A completed transfer, in full *)

Lemma untouched_rows id (f : Transaction → Transaction) l :
  existsb (fun t => (Tx_ID t =? id)%N) l = false →
  map (fun t => if (Tx_ID t =? id)%N then f t else t) l = l.
Proof.
  induction l as [|t l IH]; simpl; [done|].
  intros [Ht Hl]%orb_false_elim. by rewrite Ht, IH.
Qed.

Lemma transactions_row_check_fresh d t :
  transactions_row_check d t = None → has_transaction d (Tx_ID t) = false.
Proof.
  unfold transactions_row_check. by destruct (has_transaction d (Tx_ID t)).
Qed.

(** What a transfer that reaches its end leaves in [transactions] and in
    the statement log. *)
Lemma transfer_Ok_rows env req d log t σ :
  TransactionService.transfer env req (mkSession d log) = (Ok t, σ) →
  transactions_row_check d t = None ∧
  transactions (store σ) = (transactions d ++ [completed_row env req])%list ∧
  idempotency_keys (store σ) = idempotency_keys d ∧
  ∃ da,
    accounts d !! DestinationAccountID req = Some da ∧
    match SourceAccountID req with
    | Some s =>
        ∃ sa,
          accounts d !! s = Some sa ∧
          (BEGIN :: issued σ ++ [COMMIT])%list
          = (BEGIN :: log
             ++ tail (transfer_statements env req (Account_Balance sa)
                        (Account_Balance da)))%list
    | None =>
        (BEGIN :: issued σ ++ [COMMIT])%list
        = (BEGIN :: log
           ++ tail (transfer_statements env req 0 (Account_Balance da)))%list
    end.
Proof.
  intros H. pose proof (transfer_row _ _ _ _ _ H) as ->.
  unfold transfer_statements. unfold_storage. split_paths.
  - match goal with
    | Hc : transactions_row_check _ _ = None |- _ =>
        pose proof Hc as Hc';
        apply transactions_row_check_None in Hc' as [_ Hne]; simpl in Hne
    end.
    assert (n ≠ DestinationAccountID req) as Hne' by congruence.
    rewrite lookup_insert_ne in * by done. simplify_eq.
    split; [done|]. split.
    { rewrite map_app. simpl. rewrite N.eqb_refl.
      rewrite untouched_rows.
      - unfold completed_row, TransactionRepository.with_status. simpl.
        congruence.
      - unfold transactions_row_check, has_transaction in *. by case_match. }
    split; [done|]. eexists; split; [done|]. eexists; split; [done|].
    by rewrite <- !app_assoc.
  - split; [done|]. split.
    { rewrite map_app. simpl. rewrite N.eqb_refl.
      rewrite untouched_rows.
      - unfold completed_row, TransactionRepository.with_status. simpl.
        congruence.
      - unfold transactions_row_check, has_transaction in *. by case_match. }
    split; [done|]. eexists; split; [done|].
    by rewrite <- !app_assoc.
Qed.

(** A successful call, with the statements and the response it gives. *)
Lemma CreateTransaction_Ok_full env d req resp :
  returned (TransactionService.CreateTransaction env d req) = Ok resp →
  ∃ t σ,
    TransactionService.transfer env req (mkSession d [BEGIN]) = (Ok t, σ) ∧
    database (TransactionService.CreateTransaction env d req) = store σ ∧
    statements (TransactionService.CreateTransaction env d req)
    = (issued σ ++ [COMMIT])%list ∧
    resp = mkResponse (fresh_id env) (SourceAccountID req)
             (DestinationAccountID req) (Amount req) (Reference req)
             TransactionStatusCompleted (now env).
Proof.
  unfold TransactionService.CreateTransaction. intros H.
  destruct (model.Validate req) as [[]|]; try done.
  destruct (fault env 0); [done|].
  destruct (TransactionService.transfer env req _) as [[t|e] σ] eqn:Ht; [|done].
  destruct (fault env (length (issued σ))); [done|].
  exists t, σ. repeat split; try done.
  apply transfer_row in Ht as ->. simpl in H. by injection H as <-.
Qed.



(** X2. A valid transfer whose source account does not exist is answered
    NOT_FOUND "Source account not found" right after the locking read of
    the source, before the destination is looked at; a valid transfer whose
    source, if any, is funded but whose destination does not exist is
    answered NOT_FOUND "Destination account not found" before any row is
    inserted.  Both leave the data unchanged. *)
Theorem missing_account_is_not_found :
  (∀ env d req s,
     model.Validate req = None →
     SourceAccountID req = Some s →
     accounts d !! s = None →
     fault env 0 = None → fault env 1 = None →
     let o := TransactionService.CreateTransaction env d req in
     returned o = Err (ServiceError ErrCodeNotFound "Source account not found") ∧
     database o = d ∧
     statements o = [BEGIN; SelectBalanceForUpdate s; ROLLBACK]) ∧
  (∀ env d req,
     model.Validate req = None →
     match SourceAccountID req with
     | Some s => ∃ sa, accounts d !! s = Some sa ∧
                       (Amount req <= Account_Balance sa)%Z
     | None => True
     end →
     accounts d !! DestinationAccountID req = None →
     (∀ n, (n ≤ 2)%nat → fault env n = None) →
     let o := TransactionService.CreateTransaction env d req in
     returned o
     = Err (ServiceError ErrCodeNotFound "Destination account not found") ∧
     database o = d ∧
     Forall (fun s => match s with
                      | InsertTransaction _ | UpdateAccountBalance _ _ => False
                      | _ => True
                      end) (statements o)).
Proof.
  split.
  - intros env d req s Hv Hs Hnone H0 H1 o. subst o.
    unfold TransactionService.CreateTransaction. rewrite Hv, H0.
    unfold_storage. rewrite Hs. simpl. by rewrite H1, Hnone.
  - intros env d req Hv Hsrc Hnone Hf o. subst o.
    unfold TransactionService.CreateTransaction. rewrite Hv, (Hf 0) by lia.
    unfold_storage.
    destruct (SourceAccountID req) as [s|]; simpl.
    + destruct Hsrc as (sa & -> & Hle). rewrite (Hf 1) by lia. simpl.
      destruct (Account_Balance sa <? Amount req)%Z eqn:E; [lia|]. simpl.
      rewrite (Hf 2) by lia. rewrite Hnone. simpl.
      repeat split; try done. by repeat constructor.
    + rewrite (Hf 1) by lia. rewrite Hnone. simpl.
      repeat split; try done. by repeat constructor.
Qed.

Lemma missing_account_witness :
  returned (TransactionService.CreateTransaction (calm 100 7) bank from_nowhere)
  = Err (ServiceError "NOT_FOUND" "Source account not found") ∧
  returned (TransactionService.CreateTransaction (calm 100 7) bank to_nowhere)
  = Err (ServiceError "NOT_FOUND" "Destination account not found").
Proof.
  destruct missing_account_is_not_found as [Hsrc Hdst]. split.
  - by apply (Hsrc (calm 100 7) bank from_nowhere 9%N).
  - apply (Hdst (calm 100 7) bank to_nowhere); try done.
    exists account1. split; [done|]. by vm_compute.
Defined.

(** X3. A successful [CreateTransaction] appends exactly one row to
    [transactions]: the row of the request with the generated id, status
    completed and [completed_at] set to the time of the call; the rows that
    were there are untouched, the table [idempotency_keys] is untouched,
    and the response repeats the id, accounts, amount, reference and
    creation time of that row. *)
Theorem success_appends_one_completed_row env d req resp :
  returned (TransactionService.CreateTransaction env d req) = Ok resp →
  let d' := database (TransactionService.CreateTransaction env d req) in
  transactions d' = (transactions d ++ [completed_row env req])%list ∧
  has_transaction d (fresh_id env) = false ∧
  idempotency_keys d' = idempotency_keys d ∧
  Resp_ID resp = Tx_ID (completed_row env req) ∧
  Resp_SourceAccountID resp = Tx_SourceAccountID (completed_row env req) ∧
  Resp_DestinationAccountID resp
  = Tx_DestinationAccountID (completed_row env req) ∧
  Resp_Amount resp = Tx_Amount (completed_row env req) ∧
  Resp_Reference resp = Tx_Reference (completed_row env req) ∧
  Resp_Status resp = Tx_Status (completed_row env req) ∧
  Resp_CreatedAt resp = Tx_CreatedAt (completed_row env req).
Proof.
  intros Hok d'. subst d'.
  destruct (CreateTransaction_Ok_full _ _ _ _ Hok) as (t & σ & Ht & -> & _ & ->).
  pose proof (transfer_row _ _ _ _ _ Ht) as Hrow.
  apply transfer_Ok_rows in Ht as (Hc & -> & -> & _).
  repeat split; try done.
  apply transactions_row_check_fresh in Hc. by rewrite Hrow in Hc.
Qed.

Lemma success_appends_witness :
  let o := TransactionService.CreateTransaction (calm 100 7) bank transfer_1_to_2 in
  transactions (database o) = [completed_row (calm 100 7) transfer_1_to_2].
Proof.
  intros o.
  edestruct (success_appends_one_completed_row (calm 100 7) bank transfer_1_to_2)
    as (H & _); [by vm_compute|].
  exact H.
Defined.

(** X4. Insert and lookup: after a successful [CreateTransaction],
    [GetTransaction] with the id of the response returns the completed row
    of that transfer. *)
Theorem created_transfer_can_be_fetched env env' d req resp :
  returned (TransactionService.CreateTransaction env d req) = Ok resp →
  fault env' 0 = None →
  returned
    (TransactionService.GetTransaction env'
       (database (TransactionService.CreateTransaction env d req))
       (Resp_ID resp))
  = Ok (completed_row env req).
Proof.
  intros Hok Hf.
  destruct (CreateTransaction_Ok_full _ _ _ _ Hok) as (t & σ & Ht & -> & _ & ->).
  pose proof (transfer_row _ _ _ _ _ Ht) as Hrow.
  apply transfer_Ok_rows in Ht as (Hc & Hrows & _).
  unfold TransactionService.GetTransaction. unfold_storage.
  unfold TransactionRepository.GetByID. unfold_storage.
  rewrite Hf, Hrows. simpl.
  assert (has_transaction d (fresh_id env) = false) as Hnew.
  { apply transactions_row_check_fresh in Hc. by rewrite Hrow in Hc. }
  unfold has_transaction in Hnew.
  assert (∀ l, existsb (fun t => (Tx_ID t =? fresh_id env)%N) l = false →
               find (fun t => (Tx_ID t =? fresh_id env)%N)
                 (l ++ [completed_row env req])
               = Some (completed_row env req)) as Hfind.
  { induction l as [|u l IH]; simpl.
    - by rewrite N.eqb_refl.
    - intros [-> ?]%orb_false_elim. by apply IH. }
  by rewrite Hfind.
Qed.

Lemma created_transfer_witness :
  let o := TransactionService.CreateTransaction (calm 100 7) bank transfer_1_to_2 in
  returned (TransactionService.GetTransaction (calm 200 8) (database o) 7%N)
  = Ok (completed_row (calm 100 7) transfer_1_to_2).
Proof.
  intros o.
  eapply (created_transfer_can_be_fetched (calm 100 7) (calm 200 8) bank
            transfer_1_to_2 (mkResponse 7 _ _ _ _ _ _));
    [by vm_compute | reflexivity].
Defined.

(** ** The effect of one call *)

(** Either the call returns an error and changes nothing, or it returns a
    response and has changed the two account rows and appended the
    completed row. *)
Lemma CreateTransaction_effect env d req :
  let o := TransactionService.CreateTransaction env d req in
  (∃ e, returned o = Err e ∧ database o = d) ∨
  (∃ resp da,
     returned o = Ok resp ∧
     answers resp req ∧
     accounts d !! DestinationAccountID req = Some da ∧
     transactions_row_check d
       (mkTransaction (fresh_id env) (SourceAccountID req)
          (DestinationAccountID req) (Amount req) (Reference req)
          TransactionStatusPending (now env) None) = None ∧
     transactions (database o)
     = (transactions d ++ [completed_row env req])%list ∧
     idempotency_keys (database o) = idempotency_keys d ∧
     match SourceAccountID req with
     | Some s =>
         ∃ sa,
           accounts d !! s = Some sa ∧ s ≠ DestinationAccountID req ∧
           accounts (database o) =
             <[DestinationAccountID req :=
                 AccountRepository.with_balance env
                   (Account_Balance da + Amount req) da]>
               (<[s := AccountRepository.with_balance env
                         (Account_Balance sa - Amount req) sa]> (accounts d))
     | None =>
         accounts (database o) =
           <[DestinationAccountID req :=
               AccountRepository.with_balance env
                 (Account_Balance da + Amount req) da]> (accounts d)
     end).
Proof.
  intros o. subst o.
  destruct (returned (TransactionService.CreateTransaction env d req))
    as [resp|e] eqn:Hr.
  - right.
    pose proof (CreateTransaction_answers _ _ _ _ Hr) as Hans.
    destruct (CreateTransaction_Ok_full _ _ _ _ Hr) as (t & σ & Ht & -> & _ & _).
    pose proof (transfer_row _ _ _ _ _ Ht) as Hrow.
    destruct (transfer_Ok_rows _ _ _ _ _ _ Ht) as (Hc & Hrows & Hk & _).
    destruct (transfer_Ok _ _ _ _ _ _ Ht) as (da & Hda & _ & Hacc).
    exists resp, da. rewrite Hrow in Hc.
    split; [done|]. split; [done|]. split; [done|]. split; [done|].
    split; [done|]. split; [done|].
    destruct (SourceAccountID req); [|exact Hacc].
    destruct Hacc as (sa & ? & ? & _ & ?). by exists sa.
  - left. exists e. split; [done|]. by eapply CreateTransaction_Err.
Qed.

Lemma deposited_app l1 l2 :
  deposited (l1 ++ l2) = (deposited l1 + deposited l2)%Z.
Proof. induction l1 as [|r l1 IH]; simpl; [done|]. rewrite IH. lia. Qed.


(** One call neither creates nor deletes an account. *)
Lemma CreateTransaction_has_account env d req id :
  has_account (database (TransactionService.CreateTransaction env d req)) id
  = has_account d id.
Proof.
  destruct (CreateTransaction_effect env d req)
    as [(e & _ & ->)|(resp & da & _ & _ & Hda & _ & _ & _ & Hacc)]; [done|].
  unfold has_account.
  destruct (SourceAccountID req) as [s|].
  - destruct Hacc as (sa & Hsa & Hne & ->).
    destruct (decide (id = DestinationAccountID req)) as [->|?].
    { by rewrite lookup_insert_eq, Hda. }
    rewrite lookup_insert_ne by done.
    destruct (decide (id = s)) as [->|?].
    { by rewrite lookup_insert_eq, Hsa. }
    by rewrite lookup_insert_ne.
  - rewrite Hacc.
    destruct (decide (id = DestinationAccountID req)) as [->|?].
    { by rewrite lookup_insert_eq, Hda. }
    by rewrite lookup_insert_ne.
Qed.

(** X5. With a driver that answers, [GetTransaction] returns a row with
    the id asked for when the table has one, and NOT_FOUND "Transaction not
    found" when it has none; it never changes the data. *)
Theorem GetTransaction_finds_exactly_known_ids env d id :
  fault env 0 = None →
  let o := TransactionService.GetTransaction env d id in
  database o = d ∧
  (has_transaction d id = true →
   ∃ t, returned o = Ok t ∧ Tx_ID t = id ∧ t ∈ transactions d) ∧
  (has_transaction d id = false →
   returned o = Err (ServiceError ErrCodeNotFound "Transaction not found")).
Proof.
  intros Hf o. subst o.
  unfold TransactionService.GetTransaction, TransactionRepository.GetByID.
  unfold_storage. rewrite Hf. simpl.
  destruct (find (fun t => (Tx_ID t =? id)%N) (transactions d)) as [t|] eqn:E;
    simpl.
  - split; [done|]. split.
    + intros _. exists t. apply find_some in E as [Hin Hid].
      split; [done|]. split; [by apply N.eqb_eq|]. by apply list_elem_of_In.
    + unfold has_transaction. intros Hno.
      apply find_some in E as [Hin Hid].
      assert (existsb (fun t => (Tx_ID t =? id)%N) (transactions d) = true)
        by (apply existsb_exists; eauto).
      congruence.
  - split; [done|]. split; [|done].
    unfold has_transaction. intros [t [Hin Hid]]%existsb_exists.
    by rewrite (find_none _ _ E t Hin) in Hid.
Qed.

Lemma GetTransaction_witness :
  returned (TransactionService.GetTransaction (calm 1 1) referenced_bank 12%N)
  = Ok (mkTransaction 12 (Some 1%N) 2 (money 2 0) (Some "rent")
          TransactionStatusCompleted 300 (Some 300%Z)) ∧
  returned (TransactionService.GetTransaction (calm 1 1) referenced_bank 99%N)
  = Err (ServiceError "NOT_FOUND" "Transaction not found").
Proof.
  destruct (GetTransaction_finds_exactly_known_ids (calm 1 1) referenced_bank 12%N)
    as (_ & _ & _); [reflexivity|].
  destruct (GetTransaction_finds_exactly_known_ids (calm 1 1) referenced_bank 99%N)
    as (_ & _ & Hno); [reflexivity|].
  split; [by vm_compute|]. by apply Hno.
Defined.

(** X6. The statements of a successful [CreateTransaction], in order:
    BEGIN; the locking read of the source, if any, then that of the
    destination; the insertion of the row; for the source, a second read
    and the write of its balance less the amount; for the destination, a
    second read and the write of its balance plus the amount; the change of
    status to completed; COMMIT.  The balances written are computed from
    the balances the accounts held before the call. *)
Theorem successful_transfer_statements env d req resp :
  returned (TransactionService.CreateTransaction env d req) = Ok resp →
  ∃ destBalance,
    balance_of d (DestinationAccountID req) = Some destBalance ∧
    match SourceAccountID req with
    | Some s =>
        ∃ sourceBalance,
          balance_of d s = Some sourceBalance ∧
          statements (TransactionService.CreateTransaction env d req)
          = transfer_statements env req sourceBalance destBalance
    | None =>
        statements (TransactionService.CreateTransaction env d req)
        = transfer_statements env req 0 destBalance
    end.
Proof.
  intros Hok.
  destruct (CreateTransaction_Ok_full _ _ _ _ Hok) as (t & σ & Ht & _ & -> & _).
  apply transfer_Ok_rows in Ht as (_ & _ & _ & da & Hda & Hlog).
  exists (Account_Balance da). unfold balance_of. rewrite Hda.
  split; [done|].
  destruct (SourceAccountID req) as [s|] eqn:Hs.
  - destruct Hlog as (sa & Hsa & Hlog). exists (Account_Balance sa).
    rewrite Hsa. split; [done|].
    injection Hlog as ->. unfold transfer_statements. by rewrite Hs.
  - injection Hlog as ->. unfold transfer_statements. by rewrite Hs.
Qed.

Lemma successful_transfer_statements_witness :
  statements (TransactionService.CreateTransaction (calm 100 7) bank transfer_1_to_2)
  = [BEGIN; SelectBalanceForUpdate 1; SelectBalanceForUpdate 2;
     InsertTransaction transfer_1_to_2;
     SelectBalanceForUpdate 1; UpdateAccountBalance 1 (money 849 75);
     SelectBalanceForUpdate 2; UpdateAccountBalance 2 (money 650 75);
     UpdateTransactionStatus 7 TransactionStatusCompleted; COMMIT].
Proof.
  edestruct (successful_transfer_statements (calm 100 7) bank transfer_1_to_2)
    as (db & Hdb & sb & Hsb & ->); [by vm_compute|].
  vm_compute in Hdb, Hsb. injection Hdb as <-. injection Hsb as <-.
  by vm_compute.
Defined.

(** X7. Every transaction [CreateTransaction] opens is closed.  A call
    sends nothing (validation failed), or only a BEGIN that the driver
    refused, or BEGIN, row statements and then one closing statement:
    ROLLBACK when it returns an error met before the commit, COMMIT when it
    returns a response or the error of the commit itself. *)
Theorem transaction_is_always_closed env d req :
  let o := TransactionService.CreateTransaction env d req in
  (statements o = [] ∧
   ∃ m, returned o = Err (ServiceError ErrCodeValidation m)) ∨
  (statements o = [BEGIN] ∧
   ∃ cause, returned o = Err (Wrapped "failed to begin transaction" cause)) ∨
  ∃ l,
    (COMMIT ∉ l) ∧ (ROLLBACK ∉ l) ∧
    ((statements o = (BEGIN :: l ++ [ROLLBACK])%list ∧
      ∃ e, returned o = Err e) ∨
     (statements o = (BEGIN :: l ++ [COMMIT])%list ∧
      ((∃ resp, returned o = Ok resp) ∨
       ∃ cause,
         returned o = Err (Wrapped "failed to commit transaction" cause)))).
Proof.
  intros o. subst o. unfold TransactionService.CreateTransaction.
  destruct (model.Validate req) as [e|] eqn:Hv.
  { destruct (Validate_only_ValidationError _ _ Hv) as (f & m & ->).
    left. split; [done|]. by exists m. }
  destruct (fault env 0) as [cause|].
  { right; left. split; [done|]. by exists cause. }
  right; right.
  destruct (transfer_surfaces_faults env req (mkSession d [BEGIN]))
    as (l & Hl & Hc & Hr & _).
  exists l. split; [done|]. split; [done|].
  destruct (TransactionService.transfer env req _) as [[t|e] σ]; simpl in *.
  - right. destruct (fault env (length (issued σ))); simpl; rewrite Hl; eauto.
  - left. rewrite Hl. eauto.
Qed.

(** X8. [CreateTransaction] never creates or deletes an account and never
    changes the id or the creation time of one; an account row that
    differs after the call is the source or the destination of the request
    and carries the time of the call as [updated_at]; the table
    [idempotency_keys] is never touched. *)
Theorem transfer_keeps_account_identity env d req :
  let d' := database (TransactionService.CreateTransaction env d req) in
  idempotency_keys d' = idempotency_keys d ∧
  ∀ id,
    match accounts d !! id, accounts d' !! id with
    | Some a, Some a' =>
        Account_ID a' = Account_ID a ∧
        Account_CreatedAt a' = Account_CreatedAt a ∧
        (a' = a ∨
         Account_UpdatedAt a' = now env ∧
         (id = DestinationAccountID req ∨ SourceAccountID req = Some id))
    | None, None => True
    | _, _ => False
    end.
Proof.
  intros d'. subst d'.
  destruct (CreateTransaction_effect env d req)
    as [(e & _ & ->)|(resp & da & _ & _ & Hda & _ & _ & -> & Hacc)].
  { split; [done|]. intros id. destruct (accounts d !! id); naive_solver. }
  split; [done|]. intros id.
  destruct (SourceAccountID req) as [s|].
  - destruct Hacc as (sa & Hsa & Hne & ->).
    destruct (decide (id = DestinationAccountID req)) as [->|?].
    { rewrite lookup_insert_eq, Hda. simpl. naive_solver. }
    rewrite lookup_insert_ne by done.
    destruct (decide (id = s)) as [->|?].
    { rewrite lookup_insert_eq, Hsa. simpl. naive_solver. }
    rewrite lookup_insert_ne by done.
    destruct (accounts d !! id); naive_solver.
  - rewrite Hacc.
    destruct (decide (id = DestinationAccountID req)) as [->|?].
    { rewrite lookup_insert_eq, Hda. simpl. naive_solver. }
    rewrite lookup_insert_ne by done.
    destruct (accounts d !! id); naive_solver.
Qed.

(** ** Invariants of the ledger *)

Lemma transactions_row_check_consistent d t :
  transactions_row_check d t = None → row_consistent d t.
Proof.
  unfold transactions_row_check, row_consistent. intros H.
  destruct (has_transaction d (Tx_ID t)); [done|].
  destruct (numeric_38_10 (Tx_Amount t)); [simpl in H|done].
  destruct (0 <? Tx_Amount t)%Z eqn:Ea; [simpl in H|done].
  destruct (Tx_SourceAccountID t) as [s|].
  - destruct (s =? Tx_DestinationAccountID t)%N eqn:Es; [done|].
    destruct (has_account d s); [simpl in H|done].
    destruct (has_account d (Tx_DestinationAccountID t)); [simpl in H|done].
    apply N.eqb_neq in Es. repeat split; try done; [lia|congruence].
  - destruct (has_account d (Tx_DestinationAccountID t)); [simpl in H|done].
    repeat split; try done. lia.
Qed.

Lemma row_consistent_mono d d' t :
  (∀ id, has_account d id = true → has_account d' id = true) →
  row_consistent d t → row_consistent d' t.
Proof.
  intros Hmono (? & ? & ? & Hs). repeat split; auto.
  destruct (Tx_SourceAccountID t); auto.
Qed.

Lemma has_transaction_false d id :
  has_transaction d id = false → id ∉ map Tx_ID (transactions d).
Proof.
  unfold has_transaction. intros H Hin.
  apply list_elem_of_In, in_map_iff in Hin as (t & <- & Hin).
  assert (existsb (fun u => (Tx_ID u =? Tx_ID t)%N) (transactions d) = true).
  { apply existsb_exists. exists t. split; [done|]. apply N.eqb_refl. }
  congruence.
Qed.

Lemma CreateTransaction_ledger env d req :
  ledger_consistent d →
  ledger_consistent (database (TransactionService.CreateTransaction env d req)).
Proof.
  intros [Hnd Hrows].
  pose proof (CreateTransaction_has_account env d req) as Hacc.
  destruct (CreateTransaction_effect env d req)
    as [(e & _ & ->)|(resp & da & _ & _ & _ & Hc & Ht & _ & _)]; [done|].
  split.
  - rewrite Ht, map_app. simpl. apply NoDup_app. split; [done|]. split.
    + intros id Hid ->%list_elem_of_singleton.
      by apply (has_transaction_false d (fresh_id env));
        [apply (transactions_row_check_fresh _ _ Hc)|].
    + apply NoDup_singleton.
  - rewrite Ht. apply Forall_app. split.
    + eapply Forall_impl; [exact Hrows|]. intros t. apply row_consistent_mono.
      intros id. by rewrite Hacc.
    + constructor; [|constructor].
      apply transactions_row_check_consistent in Hc.
      apply (row_consistent_mono d); [intros id; by rewrite Hacc|].
      exact Hc.
Qed.

Lemma process_ledger envs reqs : ∀ i response d log,
  ledger_consistent d →
  ledger_consistent
    (database (TransactionService.process envs i reqs response d log)).
Proof.
  induction reqs as [|r rest IH]; intros i response d log Hd; simpl; [done|].
  pose proof (CreateTransaction_ledger (envs i) d r Hd).
  destruct (returned (TransactionService.CreateTransaction (envs i) d r));
    by apply IH.
Qed.

(** X9. The constraints of the table [transactions] are an invariant of
    the engine: when the transfer rows have distinct ids, positive amounts,
    a source different from the destination and accounts that exist, they
    still do after any [CreateTransaction], [ProcessBulkTransfers] or
    [CreateAccount], whatever these return. *)
Theorem ledger_stays_consistent :
  (∀ env d req,
     ledger_consistent d →
     ledger_consistent
       (database (TransactionService.CreateTransaction env d req))) ∧
  (∀ envs d req,
     ledger_consistent d →
     ledger_consistent
       (database (TransactionService.ProcessBulkTransfers envs d req))) ∧
  (∀ env d req,
     ledger_consistent d →
     ledger_consistent (database (AccountService.CreateAccount env d req))).
Proof.
  split; [exact CreateTransaction_ledger|]. split.
  - intros envs d req Hd. unfold TransactionService.ProcessBulkTransfers.
    destruct (model.ValidateBulk req); [done|]. by apply process_ledger.
  - intros env d req [Hnd Hrows]. unfold AccountService.CreateAccount.
    destruct (model.ValidateAccount req) as [[]|]; try done.
    unfold_storage. split_paths; try done.
    all: split; [done|]; simpl.
    all: eapply Forall_impl; [exact Hrows|]; intros t;
      apply row_consistent_mono; intros id; unfold has_account; simpl;
      destruct (decide (id = fresh_id env)) as [->|?];
      [by rewrite lookup_insert_eq | by rewrite lookup_insert_ne].
Qed.

Lemma referenced_bank_consistent : ledger_consistent referenced_bank.
Proof.
  split.
  - apply (bool_decide_unpack _). by vm_compute.
  - repeat constructor; by vm_compute.
Qed.

Lemma ledger_stays_consistent_witness :
  ledger_consistent
    (database (TransactionService.CreateTransaction (calm 400 14) referenced_bank
                 transfer_1_to_2)) ∧
  length
    (transactions
       (database (TransactionService.CreateTransaction (calm 400 14)
                    referenced_bank transfer_1_to_2))) = 4.
Proof.
  split; [|by vm_compute].
  apply (proj1 ledger_stays_consistent), referenced_bank_consistent.
Defined.

Lemma CreateTransaction_none_pending env d req :
  none_pending d →
  none_pending (database (TransactionService.CreateTransaction env d req)).
Proof.
  intros Hd.
  destruct (CreateTransaction_effect env d req)
    as [(e & _ & ->)|(resp & da & _ & _ & _ & _ & Ht & _ & _)]; [done|].
  unfold none_pending. rewrite Ht. apply Forall_app. split; [done|].
  by repeat constructor.
Qed.

(** X10. No transfer row is left pending: when no row of [transactions] is
    pending before a [CreateTransaction] or a [ProcessBulkTransfers], none
    is after it, whatever the call returns, driver failures included. *)
Theorem no_transfer_is_left_pending :
  (∀ env d req,
     none_pending d →
     none_pending (database (TransactionService.CreateTransaction env d req))) ∧
  (∀ envs d req,
     none_pending d →
     none_pending
       (database (TransactionService.ProcessBulkTransfers envs d req))).
Proof.
  split; [exact CreateTransaction_none_pending|].
  intros envs d req Hd. unfold TransactionService.ProcessBulkTransfers.
  destruct (model.ValidateBulk req); [done|].
  generalize 0 (mkBulkResponse [] []) (@nil Statement).
  revert d Hd. induction (Transfers req) as [|r rest IH];
    intros d Hd i response log; simpl; [done|].
  pose proof (CreateTransaction_none_pending (envs i) d r Hd).
  destruct (returned (TransactionService.CreateTransaction (envs i) d r));
    by apply IH.
Qed.

Lemma no_transfer_is_left_pending_witness :
  none_pending
    (database (TransactionService.ProcessBulkTransfers
                 (fun i => failing_at 5 "connection reset" 100 (N.of_nat (100 + i)))
                 bank bulk_with_deposits)) ∧
  none_pending
    (database (TransactionService.ProcessBulkTransfers calm_batch bank
                 bulk_with_deposits)).
Proof.
  destruct no_transfer_is_left_pending as [_ H].
  split; apply H; constructor.
Defined.



Example bulk_total_of_two_deposits :
  let o := TransactionService.ProcessBulkTransfers calm_batch bank
             bulk_with_deposits in
  total_balance (database o) = (total_balance bank + money 200 0)%Z.
Proof. by vm_compute. Qed.

(** ** Bulk requests: validation and answers *)

Lemma validate_each_first_invalid pre r post f m : ∀ i,
  Forall (fun t => model.Validate t = None) pre →
  model.Validate r = Some (ValidationError f m) →
  model.validate_each i (pre ++ r :: post)
  = Some (ValidationError
            ("transfers[" +:+ model.string_of_rune (i + length pre) +:+ "]." +:+ f)
            m).
Proof.
  induction pre as [|t pre IH]; intros i Hpre Hr; simpl.
  - by rewrite Hr, Nat.add_0_r.
  - inversion Hpre as [|?? Ht Hrest]; subst. rewrite Ht.
    rewrite IH by done. by rewrite Nat.add_succ_r.
Qed.

(** X12. [BulkTransferRequest.Validate] reports the first invalid element
    of a batch of at most 100: the message is that of the element, and the
    field is "transfers[" followed by the single character whose code is
    the index of the element (not the digits of the index), "]." and the
    field of the element, so it is always 13 bytes longer than that
    field. *)
Theorem bulk_validation_reports_first_invalid_element req pre r post f m :
  Transfers req = (pre ++ r :: post)%list →
  (length (Transfers req) ≤ 100)%nat →
  Forall (fun t => model.Validate t = None) pre →
  model.Validate r = Some (ValidationError f m) →
  ∃ field,
    model.ValidateBulk req = Some (ValidationError field m) ∧
    field = "transfers[" +:+ String (ascii_of_nat (length pre)) "" +:+ "]." +:+ f ∧
    String.length field = (13 + String.length f)%nat.
Proof.
  intros Hreq Hlen Hpre Hr. unfold model.ValidateBulk.
  destruct (length (Transfers req) =? 0)%nat eqn:E0.
  { apply Nat.eqb_eq in E0. rewrite Hreq, length_app in E0. simpl in E0. lia. }
  destruct (100 <? length (Transfers req))%nat eqn:E1.
  { apply Nat.ltb_lt in E1. lia. }
  rewrite Hreq, (validate_each_first_invalid pre r post f m 0 Hpre Hr).
  eexists. split; [done|]. split; [done|]. done.
Qed.

Lemma bulk_validation_witness :
  model.ValidateBulk bulk_with_zero_amount
  = Some (ValidationError
            ("transfers[" +:+ String (ascii_of_nat 1) "" +:+ "].amount")
            "amount must be positive").
Proof.
  destruct (bulk_validation_reports_first_invalid_element bulk_with_zero_amount
              [transfer_1_to_2] zero_amount [transfer_1_to_2]
              "amount" "amount must be positive")
    as (field & Hv & -> & _);
    [reflexivity | simpl; lia | by repeat constructor | reflexivity |].
  exact Hv.
Defined.

(** X13. A batch that is empty or has more than 100 elements is refused
    with a [ValidationError] on the field "transfers" before any statement
    is sent, and a batch that passes validation has between 1 and 100
    elements, each of them valid on its own. *)
Theorem bulk_size_is_bounded :
  (∀ envs d req,
     length (Transfers req) = 0 ∨ (100 < length (Transfers req))%nat →
     let o := TransactionService.ProcessBulkTransfers envs d req in
     (∃ m, returned o = Err (ValidationError "transfers" m)) ∧
     database o = d ∧ statements o = []) ∧
  (∀ req,
     model.ValidateBulk req = None →
     (1 ≤ length (Transfers req) ≤ 100)%nat ∧
     Forall (fun t => model.Validate t = None) (Transfers req)).
Proof.
  split.
  - intros envs d req Hlen o. subst o.
    unfold TransactionService.ProcessBulkTransfers, model.ValidateBulk.
    destruct (length (Transfers req) =? 0)%nat eqn:E0; [eauto|].
    destruct (100 <? length (Transfers req))%nat eqn:E1; [eauto|].
    apply Nat.eqb_neq in E0. apply Nat.ltb_ge in E1. lia.
  - intros req Hv. split.
    + unfold model.ValidateBulk in Hv.
      destruct (length (Transfers req) =? 0)%nat eqn:E0; [done|].
      destruct (100 <? length (Transfers req))%nat eqn:E1; [done|].
      apply Nat.eqb_neq in E0. apply Nat.ltb_ge in E1. lia.
    + apply Forall_forall. intros t Hin. by eapply ValidateBulk_None.
Qed.

Lemma bulk_size_witness :
  (∃ m, returned (TransactionService.ProcessBulkTransfers calm_batch bank
                    (mkBulkRequest []))
        = Err (ValidationError "transfers" m)) ∧
  (∃ m, returned (TransactionService.ProcessBulkTransfers calm_batch bank
                    (mkBulkRequest (replicate 101 deposit_1)))
        = Err (ValidationError "transfers" m)) ∧
  (1 ≤ length (Transfers bulk_with_deposits) ≤ 100)%nat.
Proof.
  destruct bulk_size_is_bounded as [Hout Hin].
  split; [|split].
  - apply (Hout calm_batch bank (mkBulkRequest [])). by left.
  - apply (Hout calm_batch bank (mkBulkRequest (replicate 101 deposit_1))).
    right. cbn [Transfers]. rewrite length_replicate. lia.
  - apply Hin. reflexivity.
Defined.

(** X14. The status [handleBulkTransfer] answers a batch that passes
    validation with tells how its elements fared: 201 when every element
    succeeded, 400 when every element failed, 207 when some succeeded and
    some failed; the body always lists one outcome per element. *)
Theorem bulk_status_reflects_outcomes envs d req :
  model.ValidateBulk req = None →
  let s := handler.handleBulkTransfer envs d (Some req) in
  ∃ resp,
    handler.Body (handler.response s) = handler.BulkJSON resp ∧
    length (Bulk_Transfers resp) + length (Bulk_Failed resp)
    = length (Transfers req) ∧
    (handler.StatusCode (handler.response s) = 201%Z ∧
       Bulk_Failed resp = [] ∧
       length (Bulk_Transfers resp) = length (Transfers req)
     ∨ handler.StatusCode (handler.response s) = 400%Z ∧
       Bulk_Transfers resp = [] ∧
       length (Bulk_Failed resp) = length (Transfers req)
     ∨ handler.StatusCode (handler.response s) = 207%Z ∧
       Bulk_Transfers resp ≠ [] ∧ Bulk_Failed resp ≠ []).
Proof.
  intros Hv s. subst s. unfold handler.handleBulkTransfer.
  unfold TransactionService.ProcessBulkTransfers. rewrite Hv.
  destruct (process_spec envs (Transfers req) 0 (mkBulkResponse [] []) d [])
    as (ts & fs & l & -> & _ & Hlen & _).
  simpl. exists (mkBulkResponse ts fs). simpl.
  split; [by destruct fs, ts|]. split; [done|].
  destruct fs as [|f fs]; simpl in *.
  - left. repeat split; try done. lia.
  - destruct ts as [|t ts]; simpl in *.
    + right; left. by repeat split.
    + right; right. by repeat split.
Qed.

Lemma bulk_status_witness :
  handler.StatusCode
    (handler.response
       (handler.handleBulkTransfer calm_batch bank (Some bulk_with_overdraw)))
  = 207%Z.
Proof.
  destruct (bulk_status_reflects_outcomes calm_batch bank bulk_with_overdraw)
    as (resp & Hb & _ & [(_ & Hf & _)|[(_ & Ht & _)|(Hs & _)]]);
    [reflexivity | | | exact Hs].
  - vm_compute in Hb. injection Hb as <-. discriminate Hf.
  - vm_compute in Hb. injection Hb as <-. discriminate Ht.
Defined.

(** ** The answers to a single transfer *)

(** The errors a transfer can end with. *)
Lemma transfer_errors env req σ e σ' :
  TransactionService.transfer env req σ = (Err e, σ') →
  match e with
  | ServiceError code _ =>
      code = ErrCodeNotFound ∨ code = ErrCodeInsufficientFunds
  | ValidationError _ _ | ErrorString _ => False
  | _ => True
  end.
Proof. intros H. unfold_storage. split_paths; auto. Qed.

(** X15. [handleSingleTransfer] answers a decoded request with 201 and the
    response of [CreateTransaction], or with the message and code of the
    [ServiceError] it returned under status 400 (VALIDATION_ERROR), 404
    (NOT_FOUND) or 422 (INSUFFICIENT_FUNDS), or, for every other error,
    with 500 and the fixed text "Internal server error", which shows
    nothing of the error.  It never answers 409. *)
Theorem single_transfer_answers env d req :
  let o := TransactionService.CreateTransaction env d req in
  let s := handler.handleSingleTransfer env d (Some req) in
  handler.served_database s = database o ∧
  handler.StatusCode (handler.response s) ≠ 409%Z ∧
  ((∃ resp,
      returned o = Ok resp ∧
      handler.response s = handler.mkHTTP 201 (handler.TransactionJSON resp))
   ∨ (∃ code m status,
        returned o = Err (ServiceError code m) ∧
        handler.response s = handler.mkHTTP status (handler.ErrorJSON m code) ∧
        (code = ErrCodeValidation ∧ status = 400%Z
         ∨ code = ErrCodeNotFound ∧ status = 404%Z
         ∨ code = ErrCodeInsufficientFunds ∧ status = 422%Z))
   ∨ (∃ e,
        returned o = Err e ∧
        (∀ code m, e ≠ ServiceError code m) ∧
        handler.response s
        = handler.mkHTTP 500
            (handler.ErrorJSON "Internal server error" ErrCodeInternalError))).
Proof.
  intros o s. subst o s. unfold handler.handleSingleTransfer.
  unfold TransactionService.CreateTransaction.
  destruct (model.Validate req) as [e|] eqn:Hv.
  { destruct (Validate_only_ValidationError _ _ Hv) as (f & m & ->). simpl.
    split; [done|]. split; [done|]. right; left.
    exists ErrCodeValidation, m, 400%Z. auto. }
  destruct (fault env 0) as [cause|]; simpl.
  { split; [done|]. split; [done|]. right; right. eexists. by repeat split. }
  destruct (TransactionService.transfer env req _) as [[t|e] σ] eqn:Ht; simpl.
  - destruct (fault env (length (issued σ))); simpl.
    + split; [done|]. split; [done|]. right; right. eexists. by repeat split.
    + split; [done|]. split; [done|]. left. by eexists.
  - apply transfer_errors in Ht.
    destruct e as [code m| | | | |]; try done; simpl.
    + destruct Ht as [->| ->]; vm_compute handler.handleServiceError.
      * split; [done|]. split; [done|]. right; left.
        exists ErrCodeNotFound, m, 404%Z.
        split; [done|]. split; [by vm_compute|]. auto.
      * split; [done|]. split; [done|]. right; left.
        exists ErrCodeInsufficientFunds, m, 422%Z.
        split; [done|]. split; [by vm_compute|]. auto.
    + split; [done|]. split; [done|]. right; right. eexists. by repeat split.
    + split; [done|]. split; [done|]. right; right. eexists. by repeat split.
    + split; [done|]. split; [done|]. right; right. eexists. by repeat split.
Qed.

(** ** Listing: order and pages *)

Lemma insert_desc_perm t l : TransactionRepository.insert_desc t l ≡ₚ t :: l.
Proof.
  induction l as [|u l IH]; simpl; [done|].
  destruct (Tx_CreatedAt u <? Tx_CreatedAt t)%Z; [done|].
  rewrite IH. apply Permutation_swap.
Qed.

Lemma order_by_created_at_desc_perm l :
  TransactionRepository.order_by_created_at_desc l ≡ₚ l.
Proof.
  induction l as [|t l IH]; simpl; [done|].
  unfold TransactionRepository.order_by_created_at_desc in *. simpl.
  by rewrite insert_desc_perm, IH.
Qed.

Lemma insert_desc_newest_first t l :
  newest_first l → newest_first (TransactionRepository.insert_desc t l).
Proof.
  induction l as [|u l IH]; simpl; [by intros; split; [constructor|]|].
  intros [Hu Hl].
  destruct (Tx_CreatedAt u <? Tx_CreatedAt t)%Z eqn:E; simpl.
  - split; [|done]. constructor; [lia|].
    eapply Forall_impl; [exact Hu|]. simpl. lia.
  - split; [|by apply IH].
    rewrite insert_desc_perm. constructor; [lia|done].
Qed.

Lemma order_by_created_at_desc_newest_first l :
  newest_first (TransactionRepository.order_by_created_at_desc l).
Proof.
  induction l as [|t l IH]; simpl; [done|].
  by apply insert_desc_newest_first.
Qed.

Lemma newest_first_drop n l : newest_first l → newest_first (drop n l).
Proof.
  revert l. induction n as [|n IH]; intros [|t l]; simpl; try done.
  intros [_ Hl]. by apply IH.
Qed.

Lemma newest_first_take n l : newest_first l → newest_first (take n l).
Proof.
  revert l. induction n as [|n IH]; intros [|t l]; simpl; try done.
  intros [Ht Hl]. split; [|by apply IH].
  apply Forall_forall. intros u Hu. rewrite Forall_forall in Ht.
  apply Ht. by eapply subseteq_take.
Qed.

(** What the service returns when it returns rows. *)
Lemma GetAccountTransactions_Ok env d accountID limit offset rows :
  returned (TransactionService.GetAccountTransactions env d accountID limit offset)
  = Ok rows →
  has_account d accountID = true ∧
  ∃ n m,
    rows = take n
             (drop m
                (TransactionRepository.order_by_created_at_desc
                   (List.filter (TransactionRepository.involves accountID)
                      (transactions d)))).
Proof.
  unfold TransactionService.GetAccountTransactions. unfold_storage.
  intros H.
  destruct (fault env 0); [done|].
  destruct (has_account d accountID); [|done]. simpl in H.
  split; [done|]. split_paths; by do 2 eexists.
Qed.

(** X16. The rows [GetAccountTransactions] returns are rows of the table
    in which the account is the source or the destination, listed newest
    first (no row is older than a row after it); the call does not change
    the data. *)
Theorem listing_is_newest_first_and_relevant env d accountID limit offset rows :
  returned (TransactionService.GetAccountTransactions env d accountID limit offset)
  = Ok rows →
  newest_first rows ∧
  Forall (fun t =>
            t ∈ transactions d ∧
            (Tx_SourceAccountID t = Some accountID
             ∨ Tx_DestinationAccountID t = accountID)) rows ∧
  database (TransactionService.GetAccountTransactions env d accountID limit offset)
  = d.
Proof.
  intros H.
  destruct (GetAccountTransactions_Ok _ _ _ _ _ _ H) as (_ & n & m & ->).
  split; [|split].
  - apply newest_first_take, newest_first_drop,
      order_by_created_at_desc_newest_first.
  - apply Forall_forall. intros t Ht.
    apply subseteq_take, subseteq_drop in Ht.
    rewrite order_by_created_at_desc_perm in Ht.
    apply list_elem_of_In, filter_In in Ht as [Hin Hinv].
    split; [by apply list_elem_of_In|].
    unfold TransactionRepository.involves in Hinv.
    apply orb_true_iff in Hinv as [Hs|Hd].
    + left. destruct (Tx_SourceAccountID t) as [s|]; [|done].
      by apply N.eqb_eq in Hs as ->.
    + right. by apply N.eqb_eq.
  - clear H. unfold TransactionService.GetAccountTransactions. unfold_storage.
    by split_paths.
Qed.

Lemma listing_witness :
  ∃ rows,
    returned (TransactionService.GetAccountTransactions (calm 1 1)
                referenced_bank 2%N 10 0) = Ok rows ∧
    map Tx_ID rows = [12%N; 11%N] ∧
    newest_first rows.
Proof.
  eexists. split; [by vm_compute|]. split; [by vm_compute|].
  eapply (listing_is_newest_first_and_relevant (calm 1 1) referenced_bank 2%N
            10 0).
  by vm_compute.
Defined.

Lemma GetAccountTransactions_value env d accountID limit offset :
  has_account d accountID = true →
  fault env 0 = None → fault env 1 = None →
  (1 <= limit <= 100)%Z → (0 <= offset)%Z →
  returned (TransactionService.GetAccountTransactions env d accountID limit offset)
  = Ok (take (Z.to_nat limit)
          (drop (Z.to_nat offset)
             (TransactionRepository.order_by_created_at_desc
                (List.filter (TransactionRepository.involves accountID)
                   (transactions d))))).
Proof.
  intros Hacc H0 H1 Hl Ho.
  unfold TransactionService.GetAccountTransactions. unfold_storage.
  rewrite H0, Hacc. simpl. rewrite H1.
  assert ((limit <=? 0)%Z = false) as -> by lia.
  assert ((100 <? limit)%Z = false) as -> by lia. simpl.
  assert ((offset <? 0)%Z = false) as Hx by lia.
  assert ((limit <? 0)%Z = false) as Hy by lia.
  by rewrite Hy, !Hx.
Qed.

(** X17. With a driver that answers, an account that exists, offset 0 and
    a limit in 1..100 that is at least the number of transfers of the
    account, [GetAccountTransactions] returns every transfer of the account
    exactly once. *)
Theorem listing_is_complete env d accountID limit :
  has_account d accountID = true →
  fault env 0 = None → fault env 1 = None →
  (1 <= limit <= 100)%Z →
  (length (List.filter (TransactionRepository.involves accountID)
             (transactions d)) ≤ Z.to_nat limit)%nat →
  ∃ rows,
    returned (TransactionService.GetAccountTransactions env d accountID limit 0)
    = Ok rows ∧
    rows ≡ₚ List.filter (TransactionRepository.involves accountID)
              (transactions d).
Proof.
  intros Hacc H0 H1 Hl Hlen.
  rewrite GetAccountTransactions_value by (done || lia).
  eexists. split; [done|]. simpl.
  rewrite take_ge; [apply order_by_created_at_desc_perm|].
  by rewrite order_by_created_at_desc_perm.
Qed.

Lemma listing_is_complete_witness :
  ∃ rows,
    returned (TransactionService.GetAccountTransactions (calm 1 1) busy_bank
                1%N 100 0) = Ok rows ∧
    length rows = 25.
Proof.
  destruct (listing_is_complete (calm 1 1) busy_bank 1%N 100)
    as (rows & Hr & Hp); [reflexivity | reflexivity | reflexivity | lia | |].
  - apply Nat.leb_le. by vm_compute.
  - exists rows. split; [exact Hr|]. by rewrite Hp.
Defined.



(** X19. For an account that does not exist, and a driver that answers,
    [GetAccountTransactions] returns NOT_FOUND "Account not found" after
    the existence query alone: the listing query is never sent. *)
Theorem listing_of_unknown_account_is_not_found env d accountID limit offset :
  has_account d accountID = false →
  fault env 0 = None →
  let o := TransactionService.GetAccountTransactions env d accountID limit offset in
  returned o = Err (ServiceError ErrCodeNotFound "Account not found") ∧
  statements o = [SelectAccountExists accountID] ∧
  database o = d.
Proof.
  intros Hacc Hf o. subst o.
  unfold TransactionService.GetAccountTransactions. unfold_storage.
  by rewrite Hf, Hacc.
Qed.

Lemma listing_of_unknown_account_witness :
  returned (TransactionService.GetAccountTransactions (calm 1 1) bank 9%N 20 0)
  = Err (ServiceError "NOT_FOUND" "Account not found").
Proof.
  by apply (listing_of_unknown_account_is_not_found (calm 1 1) bank 9%N 20 0).
Defined.



(** ** Accounts *)



(** X22. [CreateAccount] refuses a negative initial balance with
    VALIDATION_ERROR "initial balance cannot be negative" before any
    statement is sent; and when the generated id is already in use, or the
    driver fails, it returns the wrapped storage error.  In all these cases
    the data is unchanged. *)
Theorem account_creation_failures :
  (∀ env d req b,
     InitialBalance req = Some b → (b < 0)%Z →
     let o := AccountService.CreateAccount env d req in
     returned o
     = Err (ServiceError ErrCodeValidation "initial balance cannot be negative") ∧
     database o = d ∧ statements o = []) ∧
  (∀ env d req,
     model.ValidateAccount req = None →
     has_account d (fresh_id env) = true ∨ fault env 0 ≠ None →
     let o := AccountService.CreateAccount env d req in
     (∃ cause, returned o = Err (Wrapped "failed to create account" cause)) ∧
     database o = d).
Proof.
  split.
  - intros env d req b Hb Hneg o. subst o.
    unfold AccountService.CreateAccount, model.ValidateAccount. rewrite Hb.
    by destruct (b <? 0)%Z eqn:E; [|lia].
  - intros env d req Hv Hbad o. subst o.
    unfold AccountService.CreateAccount. rewrite Hv. unfold_storage.
    destruct (fault env 0) as [c|]; [by eauto|].
    destruct Hbad as [-> |?]; [|done]. by eauto.
Qed.

Lemma account_creation_failures_witness :
  returned (AccountService.CreateAccount (calm 100 7) bank
              (mkAccountRequest (Some (-1)%Z)))
  = Err (ServiceError "VALIDATION_ERROR" "initial balance cannot be negative") ∧
  database (AccountService.CreateAccount (calm 100 1) bank (mkAccountRequest None))
  = bank.
Proof.
  destruct account_creation_failures as [Hneg Hdup]. split.
  - by apply (Hneg (calm 100 7) bank (mkAccountRequest (Some (-1)%Z)) (-1)%Z).
  - apply (Hdup (calm 100 1) bank (mkAccountRequest None)); [done|by left].
Defined.

(** X23. For an account that exists and a driver that answers, a balance
    query at an instant not before the [updated_at] of the row returns the
    current balance, the same as the query without an instant: the store
    keeps no earlier balances. *)
Theorem balance_at_or_after_last_update_is_current env d id a t :
  accounts d !! id = Some a →
  (Account_UpdatedAt a <= t)%Z →
  fault env 0 = None →
  returned (AccountService.GetAccountBalance env d id (Some t))
  = Ok (Account_Balance a) ∧
  returned (AccountService.GetAccountBalance env d id None)
  = Ok (Account_Balance a).
Proof.
  intros Ha Ht Hf. unfold AccountService.GetAccountBalance. unfold_storage.
  rewrite Hf, Ha. simpl.
  by destruct (Account_UpdatedAt a <=? t)%Z eqn:E; [|lia].
Qed.

Lemma balance_at_or_after_witness :
  returned (AccountService.GetAccountBalance (calm 600 7) late_bank 1%N (Some 500%Z))
  = Ok (money 1000 0) ∧
  returned (AccountService.GetAccountBalance (calm 600 7) late_bank 1%N None)
  = Ok (money 1000 0).
Proof.
  apply (balance_at_or_after_last_update_is_current (calm 600 7) late_bank 1%N
           (mkAccount 1 (money 1000 0) 10 500) 500%Z);
    [reflexivity | simpl; lia | reflexivity].
Defined.

(** X24. The account queries agree on which accounts exist.  With a driver
    that answers, for an id without a row [GetAccount], [GetAccountBalance]
    (with or without an instant) and [CheckAccountExists] all return
    NOT_FOUND "Account not found"; for an id with a row
    [CheckAccountExists] returns no error and [GetAccount] returns the
    row.  None of them changes the data. *)
Theorem account_queries_agree env d id :
  fault env 0 = None →
  let not_found := ServiceError ErrCodeNotFound "Account not found" in
  match accounts d !! id with
  | None =>
      returned (AccountService.GetAccount env d id) = Err not_found ∧
      returned (AccountService.GetAccountBalance env d id None) = Err not_found ∧
      (∀ t, returned (AccountService.GetAccountBalance env d id (Some t))
            = Err not_found) ∧
      returned (CheckAccountExists env d id) = Err not_found
  | Some a =>
      returned (AccountService.GetAccount env d id) = Ok a ∧
      returned (AccountService.GetAccountBalance env d id None)
      = Ok (Account_Balance a) ∧
      returned (CheckAccountExists env d id) = Ok tt
  end ∧
  database (AccountService.GetAccount env d id) = d ∧
  database (AccountService.GetAccountBalance env d id None) = d ∧
  database (CheckAccountExists env d id) = d.
Proof.
  intros Hf not_found. subst not_found.
  unfold AccountService.GetAccount, AccountService.GetAccountBalance,
    CheckAccountExists.
  unfold_storage. unfold has_account. rewrite Hf. simpl.
  destruct (accounts d !! id); simpl; by repeat split.
Qed.

Lemma account_queries_witness :
  returned (CheckAccountExists (calm 1 1) bank 2%N) = Ok tt ∧
  returned (CheckAccountExists (calm 1 1) bank 9%N)
  = Err (ServiceError "NOT_FOUND" "Account not found").
Proof.
  pose proof (account_queries_agree (calm 1 1) bank 2%N eq_refl) as H2.
  pose proof (account_queries_agree (calm 1 1) bank 9%N eq_refl) as H9.
  vm_compute (accounts bank !! _) in *. split; [apply H2 | apply H9].
Defined.



(** ** The idempotency store *)

(** X26. The life of an idempotency record.  With a driver that answers
    and a key of at most 64 bytes: [StoreRequest] for a key without a
    record creates one that [GetRequest] returns, without a response, as
    long as the time is within 24 hours of the creation; [StoreRequest] for
    a key that has a record changes nothing (the first request body is
    kept) and returns no error; after [UpdateResponse], an unexpired record
    is returned with the response and status given and its other fields
    kept; [UpdateResponse] for a key without a record changes nothing and
    returns no error. *)
Theorem idempotency_record_lifecycle :
  (∀ env env' d keyHash body,
     fault env 0 = None → fault env' 0 = None →
     (String.length keyHash ≤ 64)%nat →
     idempotency_keys d !! keyHash = None →
     (now env' < now env + 24 * 3600)%Z →
     let o := on_pool d (IdempotencyRepository.StoreRequest env keyHash body) in
     returned o = Ok tt ∧
     returned (on_pool (database o) (IdempotencyRepository.GetRequest env' keyHash))
     = Ok (Some (mkIdempotencyRecord keyHash body None None (now env)
                   (now env + 24 * 3600)))) ∧
  (∀ env d keyHash body record,
     fault env 0 = None →
     (String.length keyHash ≤ 64)%nat →
     idempotency_keys d !! keyHash = Some record →
     let o := on_pool d (IdempotencyRepository.StoreRequest env keyHash body) in
     returned o = Ok tt ∧ database o = d) ∧
  (∀ env env' d keyHash responseBody status record,
     fault env 0 = None → fault env' 0 = None →
     idempotency_keys d !! keyHash = Some record →
     (now env' < ExpiresAt record)%Z →
     let o :=
       on_pool d
         (IdempotencyRepository.UpdateResponse env keyHash responseBody status) in
     returned o = Ok tt ∧
     returned (on_pool (database o) (IdempotencyRepository.GetRequest env' keyHash))
     = Ok (Some (mkIdempotencyRecord (KeyHash record) (RequestBody record)
                   (Some responseBody) (Some status) (Idem_CreatedAt record)
                   (ExpiresAt record)))) ∧
  (∀ env d keyHash responseBody status,
     fault env 0 = None →
     idempotency_keys d !! keyHash = None →
     let o :=
       on_pool d
         (IdempotencyRepository.UpdateResponse env keyHash responseBody status) in
     returned o = Ok tt ∧ database o = d).
Proof.
  split; [|split; [|split]].
  - intros env env' d k body Hf Hf' Hlen Hnone Hnow o. subst o.
    unfold IdempotencyRepository.StoreRequest, IdempotencyRepository.GetRequest,
      IdempotencyRepository.ttl.
    unfold_storage. rewrite Hf, Hnone.
    destruct (64 <? String.length k)%nat eqn:E; [apply Nat.ltb_lt in E; lia|].
    simpl. split; [done|]. rewrite Hf', lookup_insert_eq. simpl.
    by destruct (now env' <? now env + 24 * 3600)%Z eqn:E'; [|lia].
  - intros env d k body record Hf Hlen Hsome o. subst o.
    unfold IdempotencyRepository.StoreRequest. unfold_storage.
    rewrite Hf, Hsome.
    by destruct (64 <? String.length k)%nat eqn:E; [apply Nat.ltb_lt in E; lia|].
  - intros env env' d k rb st record Hf Hf' Hsome Hnow o. subst o.
    unfold IdempotencyRepository.UpdateResponse, IdempotencyRepository.GetRequest.
    unfold_storage. rewrite Hf. simpl. split; [done|].
    rewrite Hf', lookup_alter_eq, Hsome. simpl.
    by destruct (now env' <? ExpiresAt record)%Z eqn:E'; [|lia].
  - intros env d k rb st Hf Hnone o. subst o.
    unfold IdempotencyRepository.UpdateResponse. unfold_storage.
    rewrite Hf. simpl. split; [done|].
    destruct d as [acc txs keys]. unfold set_idempotency_keys. simpl in *.
    f_equal. apply map_eq. intros j. rewrite lookup_alter.
    case_decide; [subst; by rewrite Hnone|done].
Qed.

Lemma idempotency_lifecycle_witness :
  let stored :=
    database (on_pool bank (IdempotencyRepository.StoreRequest (calm 10 1)
                              "k" "{a}")) in
  returned (on_pool stored (IdempotencyRepository.GetRequest (calm 20 2) "k"))
  = Ok (Some (mkIdempotencyRecord "k" "{a}" None None 10 86410)) ∧
  database (on_pool stored (IdempotencyRepository.StoreRequest (calm 30 3)
                              "k" "{b}")) = stored.
Proof.
  intros stored.
  destruct idempotency_record_lifecycle as (Hnew & Hdup & _ & _). split.
  - apply (Hnew (calm 10 1) (calm 20 2) bank "k" "{a}");
      try reflexivity; simpl; lia.
  - eapply (Hdup (calm 30 3) stored "k" "{b}"); [reflexivity | simpl; lia |].
    by vm_compute.
Defined.

(** X27. Expiry.  [GetRequest] only returns a record stored under the key
    asked for and not yet expired at the time of the query.
    [CleanupExpired], when the driver answers, removes exactly the records
    that expired before the time of the sweep and returns their number; it
    touches neither accounts nor transfers, and at the time of the sweep or
    later [GetRequest] answers every key as it would have without the
    sweep. *)
Theorem expiry_hides_and_sweep_preserves_answers :
  (∀ env keyHash σ record,
     (IdempotencyRepository.GetRequest env keyHash σ).1 = Ok (Some record) →
     idempotency_keys (store σ) !! keyHash = Some record ∧
     (now env < ExpiresAt record)%Z) ∧
  (∀ env d,
     fault env 0 = None →
     let d' := (CleanupExpired env d).2 in
     (CleanupExpired env d).1
     = Ok (Z.of_nat
             (size (filter (fun kr => (ExpiresAt kr.2 < now env)%Z)
                      (idempotency_keys d)))) ∧
     accounts d' = accounts d ∧
     transactions d' = transactions d ∧
     (∀ k r, idempotency_keys d' !! k = Some r ↔
             idempotency_keys d !! k = Some r ∧ (now env <= ExpiresAt r)%Z) ∧
     (∀ env' keyHash log,
        (now env <= now env')%Z →
        (IdempotencyRepository.GetRequest env' keyHash (mkSession d' log)).1
        = (IdempotencyRepository.GetRequest env' keyHash (mkSession d log)).1)).
Proof.
  split.
  - intros env k σ record. unfold IdempotencyRepository.GetRequest.
    unfold_storage. intros H. split_paths. split; [done|]. lia.
  - intros env d Hf d'. subst d'. unfold CleanupExpired. rewrite Hf. simpl.
    assert (∀ k r,
              filter (fun kr : string * IdempotencyRecord =>
                        ¬ (ExpiresAt kr.2 < now env)%Z) (idempotency_keys d)
              !! k = Some r
              ↔ idempotency_keys d !! k = Some r ∧ (now env <= ExpiresAt r)%Z)
      as Hkept.
    { intros k r. rewrite map_lookup_filter_Some. simpl. intuition lia. }
    split; [|split; [done|split; [done|split; [exact Hkept|]]]].
    + f_equal. f_equal.
      pose proof (map_filter_union_complement
                    (fun kr : string * IdempotencyRecord =>
                       (ExpiresAt kr.2 < now env)%Z) (idempotency_keys d)) as Hu.
      rewrite <- Hu at 1.
      rewrite map_size_disj_union by apply map_disjoint_filter_complement.
      lia.
    + intros env' k log Hnow. unfold IdempotencyRepository.GetRequest.
      unfold_storage. destruct (fault env' (length log)); [done|]. simpl.
      assert (∀ o o' : option IdempotencyRecord, o = o' →
                @Ok (option IdempotencyRecord) o = Ok o') as Hok
        by (by intros ?? ->).
      apply Hok.
      destruct (idempotency_keys d !! k) as [r|] eqn:Hk.
      * destruct (decide (now env <= ExpiresAt r)%Z) as [Hle|Hgt].
        { by rewrite (proj2 (Hkept k r) (conj Hk Hle)). }
        destruct (filter _ (idempotency_keys d) !! k) as [r'|] eqn:Hk'.
        { apply Hkept in Hk' as [? ?]. simplify_eq. lia. }
        by destruct (now env' <? ExpiresAt r)%Z eqn:E; [lia|].
      * destruct (filter _ (idempotency_keys d) !! k) as [r'|] eqn:Hk'; [|done].
        apply Hkept in Hk' as [? ?]. simplify_eq.
Qed.

Lemma expiry_witness :
  (CleanupExpired (calm 1000 1) keyed_bank).1 = Ok 1%Z ∧
  (IdempotencyRepository.GetRequest (calm 1000 2) "old"
     (mkSession keyed_bank [])).1 = Ok None.
Proof.
  destruct expiry_hides_and_sweep_preserves_answers as [Hget Hsweep]. split.
  - destruct (Hsweep (calm 1000 1) keyed_bank) as (Hn & _); [reflexivity|].
    rewrite Hn. by vm_compute.
  - destruct (IdempotencyRepository.GetRequest (calm 1000 2) "old"
                (mkSession keyed_bank [])).1 as [[record|]|e] eqn:E;
      [|done|by vm_compute in E].
    apply (Hget (calm 1000 2)) in E as [Hk Hexp].
    vm_compute in Hk. injection Hk as <-. simpl in Hexp. lia.
Defined.

(** ** The transaction log *)

(** X28. [UpdateStatus] only ever touches the status and the completion
    time of the rows with the id given: whatever it returns, the ids,
    accounts, amounts, references and creation times of all rows, and all
    accounts, are as before.  With a driver that answers, it returns
    [ErrTransactionNotFound] and changes nothing when no row has the id,
    and otherwise sets the status of the row and, for completed or failed,
    stamps [completed_at] with the time of the call, while for pending it
    keeps [completed_at]. *)
Theorem UpdateStatus_changes_status_only env id status σ :
  let r := (TransactionRepository.UpdateStatus env id status σ).1 in
  let d := store σ in
  let d' := store (TransactionRepository.UpdateStatus env id status σ).2 in
  accounts d' = accounts d ∧
  map (fun t => (Tx_ID t, Tx_SourceAccountID t, Tx_DestinationAccountID t,
                 Tx_Amount t, Tx_Reference t, Tx_CreatedAt t))
    (transactions d')
  = map (fun t => (Tx_ID t, Tx_SourceAccountID t, Tx_DestinationAccountID t,
                   Tx_Amount t, Tx_Reference t, Tx_CreatedAt t))
      (transactions d) ∧
  (fault env (length (issued σ)) = None →
   (has_transaction d id = false → r = Err ErrTransactionNotFound ∧ d' = d) ∧
   (has_transaction d id = true →
    r = Ok tt ∧
    ∀ i t, transactions d !! i = Some t → Tx_ID t = id →
           ∃ t', transactions d' !! i = Some t' ∧
                 Tx_Status t' = status ∧
                 Tx_CompletedAt t'
                 = match status with
                   | TransactionStatusPending => Tx_CompletedAt t
                   | _ => Some (now env)
                   end)).
Proof.
  intros r d d'. subst r d d'. unfold TransactionRepository.UpdateStatus.
  unfold_storage.
  destruct (fault env (length (issued σ))) as [c|]; simpl.
  { split; [done|]. split; [done|]. done. }
  assert (∀ l : list Transaction,
            map (fun t => (Tx_ID t, Tx_SourceAccountID t,
                           Tx_DestinationAccountID t, Tx_Amount t,
                           Tx_Reference t, Tx_CreatedAt t))
              (map (fun t => if (Tx_ID t =? id)%N
                             then TransactionRepository.with_status env status t
                             else t) l)
            = map (fun t => (Tx_ID t, Tx_SourceAccountID t,
                             Tx_DestinationAccountID t, Tx_Amount t,
                             Tx_Reference t, Tx_CreatedAt t)) l) as Hsame.
  { induction l as [|t l IH]; simpl; [done|]. rewrite IH.
    by destruct (Tx_ID t =? id)%N. }
  assert (∀ l : list Transaction,
            (Z.of_nat (length (List.filter (fun t => (Tx_ID t =? id)%N) l)) =? 0)%Z
            = negb (existsb (fun t => (Tx_ID t =? id)%N) l)) as Hcount.
  { induction l as [|t l IH]; simpl; [done|].
    destruct (Tx_ID t =? id)%N; simpl; [done|exact IH]. }
  rewrite Hcount. unfold has_transaction.
  destruct (existsb _ (transactions (store σ))) eqn:Hex; simpl.
  - split; [done|]. split; [apply Hsame|]. intros _. split; [done|].
    intros _. split; [done|]. intros i t Hi Hid.
    rewrite list_lookup_fmap, Hi. simpl.
    apply N.eqb_eq in Hid. rewrite Hid.
    eexists. split; [done|]. by destruct status.
  - split; [done|]. split; [apply Hsame|]. intros _. split; [|done].
    intros _. split; [done|]. rewrite untouched_rows by done.
    by destruct (store σ).
Qed.

Lemma UpdateStatus_witness :
  let σ := mkSession referenced_bank [] in
  map Tx_Status
    (transactions
       (store (TransactionRepository.UpdateStatus (calm 900 1) 13%N
                 TransactionStatusFailed σ).2))
  = [TransactionStatusCompleted; TransactionStatusCompleted;
     TransactionStatusFailed] ∧
  (TransactionRepository.UpdateStatus (calm 900 1) 99%N
     TransactionStatusFailed σ).1 = Err ErrTransactionNotFound.
Proof.
  intros σ. split; [by vm_compute|].
  destruct (UpdateStatus_changes_status_only (calm 900 1) 99%N
              TransactionStatusFailed σ) as (_ & _ & H).
  destruct (H eq_refl) as [Hno _]. by apply Hno.
Defined.

(** X29. With a driver that answers, [GetByReference] returns a row of the
    table that carries the reference asked for and is at least as recent
    as every other row with that reference, and it returns
    [ErrTransactionNotFound] exactly when no row carries the reference. *)
Theorem GetByReference_returns_newest_match env d reference :
  fault env 0 = None →
  match GetByReference env d reference with
  | Ok t =>
      t ∈ transactions d ∧
      Tx_Reference t = Some reference ∧
      ∀ u, u ∈ transactions d → Tx_Reference u = Some reference →
           (Tx_CreatedAt u <= Tx_CreatedAt t)%Z
  | Err e =>
      e = ErrTransactionNotFound ∧
      ∀ u, u ∈ transactions d → Tx_Reference u ≠ Some reference
  end.
Proof.
  intros Hf. unfold GetByReference. rewrite Hf.
  set (matches := fun t : Transaction =>
                    match Tx_Reference t with
                    | Some r => String.eqb r reference
                    | None => false
                    end).
  assert (∀ u, u ∈ List.filter matches (transactions d)
               ↔ u ∈ transactions d ∧ Tx_Reference u = Some reference) as Hm.
  { intros u. rewrite !list_elem_of_In, filter_In. unfold matches.
    split; intros [Hin Hr]; (split; [done|]).
    - destruct (Tx_Reference u) as [r|]; [|done].
      by apply String.eqb_eq in Hr as ->.
    - rewrite Hr. apply String.eqb_refl. }
  pose proof (order_by_created_at_desc_perm
                (List.filter matches (transactions d))) as Hperm.
  pose proof (order_by_created_at_desc_newest_first
                (List.filter matches (transactions d))) as Hsorted.
  destruct (TransactionRepository.order_by_created_at_desc
              (List.filter matches (transactions d))) as [|t rest].
  - split; [done|]. intros u Hin Hr.
    assert (u ∈ List.filter matches (transactions d)) as Hu by by apply Hm.
    rewrite <- Hperm in Hu. by apply elem_of_nil in Hu.
  - assert (t ∈ List.filter matches (transactions d)) as Ht.
    { rewrite <- Hperm. by left. }
    apply Hm in Ht as [Hin Hr]. split; [done|]. split; [done|].
    intros u Hu Hur.
    assert (u ∈ List.filter matches (transactions d)) as Hu' by by apply Hm.
    rewrite <- Hperm in Hu'. destruct Hsorted as [Hrest _].
    apply elem_of_cons in Hu' as [->|Hu']; [lia|].
    rewrite Forall_forall in Hrest. by apply Hrest.
Qed.

Lemma GetByReference_witness :
  (Tx_ID <$> match GetByReference (calm 1 1) referenced_bank "rent" with
             | Ok t => Some t
             | Err _ => None
             end) = Some 12%N ∧
  GetByReference (calm 1 1) referenced_bank "none" = Err ErrTransactionNotFound.
Proof.
  pose proof (GetByReference_returns_newest_match (calm 1 1) referenced_bank
                "none" eq_refl) as H.
  split; [by vm_compute|].
  destruct (GetByReference (calm 1 1) referenced_bank "none") as [t|e];
    [|by destruct H as [-> _]].
  destruct H as (Hin & Hr & _). exfalso.
  repeat (apply elem_of_cons in Hin as [->|Hin]; [by vm_compute in Hr|]).
  by apply elem_of_nil in Hin.
Defined.
